(** * osos: the GitHub API client ([osos/api_github/api_github.py])

    A shallow embedding of the [Github] class: the authenticated GET
    wrapper, the two pagination loops ([get_generator], [get_all]) and the
    endpoint helpers built on them, followed by the properties of the
    client's specification that can be settled on that code.

    Conventions of the embedding.
    - A Python call either returns a value or raises: [result A].
    - The network is scripted: the k-th call of [requests.get] receives the
      k-th response of a list of pending responses, and every call is
      recorded with the arguments it was made with. A call made when the
      script is exhausted raises [ConnectionError].
    - JSON bodies are the values [json.loads] produces.
    - Python floats are modelled by exact rationals. *)

From Stdlib Require Import ZArith QArith List Ascii String Lia Sorted.
From stdpp Require Import base option list strings gmap pretty.

Open Scope string_scope.
Open Scope list_scope.
Open Scope Z_scope.

Set Warnings "-register-all".

(** ** Exceptions and results *)

(** The exception classes the client can raise. In Python 3 [IOError] is
    the class [OSError] itself. *)
Inductive pyexn : Type :=
  | OSError (msg : string)
  | TypeError (msg : string)
  | KeyError (key : string)
  | AttributeError (msg : string)
  | RuntimeError (msg : string)
  | ValueError (msg : string)
  | JSONDecodeError
  | ConnectionError.

Definition IOError : string -> pyexn := OSError.

Inductive result (A : Type) : Type :=
  | Ok (a : A)
  | Raise (e : pyexn).
Arguments Ok {A} a.
Arguments Raise {A} e.

Definition rbind {A B} (r : result A) (k : A -> result B) : result B :=
  match r with
  | Ok a => k a
  | Raise e => Raise e
  end.

Notation "'letr' x := e 'in' k" := (rbind e (fun x => k))
  (at level 10, x name, e at level 100, k at level 200).

Definition is_ok {A} (r : result A) : bool :=
  match r with Ok _ => true | Raise _ => false end.

(** ** Characters and text that Rocq string literals cannot hold *)

Definition dq : string := String (ascii_of_nat 34) EmptyString.
Definition nl : string := String (ascii_of_nat 10) EmptyString.

(** [str(n)] for an [int]. *)
Definition str_of_int (n : Z) : string := pretty n.

(** ** JSON values *)

Inductive json : Type :=
  | JNull
  | JBool (b : bool)
  | JInt (n : Z)
  | JFloat (q : Q)
  | JStr (s : string)
  | JList (l : list json)
  | JDict (kvs : list (string * json)).

Definition str_nonempty (s : string) : bool :=
  match s with EmptyString => false | String _ _ => true end.

(** [bool(x)]: Python truthiness of a decoded JSON value. *)
Definition truthy (j : json) : bool :=
  match j with
  | JNull => false
  | JBool b => b
  | JInt n => negb (n =? 0)
  | JFloat q => negb (Qnum q =? 0)
  | JStr s => str_nonempty s
  | JList l => match l with [] => false | _ :: _ => true end
  | JDict kvs => match kvs with [] => false | _ :: _ => true end
  end.

(** [type(x)] as [format] prints it. *)
Definition type_repr (j : json) : string :=
  match j with
  | JNull => "<class 'NoneType'>"
  | JBool _ => "<class 'bool'>"
  | JInt _ => "<class 'int'>"
  | JFloat _ => "<class 'float'>"
  | JStr _ => "<class 'str'>"
  | JList _ => "<class 'list'>"
  | JDict _ => "<class 'dict'>"
  end.

Definition type_name (j : json) : string :=
  match j with
  | JNull => "NoneType"
  | JBool _ => "bool"
  | JInt _ => "int"
  | JFloat _ => "float"
  | JStr _ => "str"
  | JList _ => "list"
  | JDict _ => "dict"
  end.

(** [any(x)]: iterates a list over its elements, a dict over its keys and
    a str over its characters (each a non-empty str); anything else is not
    iterable. *)
Definition py_any (j : json) : result bool :=
  match j with
  | JList l => Ok (existsb truthy l)
  | JDict kvs => Ok (existsb (fun kv => str_nonempty (fst kv)) kvs)
  | JStr s => Ok (str_nonempty s)
  | _ => Raise (TypeError ("'" +:+ type_name j +:+ "' object is not iterable"))
  end.

Definition isinstance_list (j : json) : bool :=
  match j with JList _ => true | _ => false end.

Definition isinstance_dict (j : json) : bool :=
  match j with JDict _ => true | _ => false end.

(** Python dicts as insertion-ordered association lists with unique keys. *)
Fixpoint dict_set {V} (k : string) (v : V) (d : list (string * V)) : list (string * V) :=
  match d with
  | [] => [(k, v)]
  | (k', v') :: d' =>
      if String.eqb k k' then (k', v) :: d' else (k', v') :: dict_set k v d'
  end.

Fixpoint dict_get {V} (k : string) (d : list (string * V)) : option V :=
  match d with
  | [] => None
  | (k', v') :: d' => if String.eqb k k' then Some v' else dict_get k d'
  end.

(** [d.update(e)] *)
Definition dict_update {V} (d e : list (string * V)) : list (string * V) :=
  fold_left (fun acc kv => dict_set (fst kv) (snd kv) acc) e d.

(** [x[key]] with a str key. *)
Definition py_getitem (j : json) (key : string) : result json :=
  match j with
  | JDict kvs =>
      match dict_get key kvs with
      | Some v => Ok v
      | None => Raise (KeyError key)
      end
  | JList _ => Raise (TypeError "list indices must be integers or slices, not str")
  | JStr _ => Raise (TypeError "string indices must be integers")
  | _ => Raise (TypeError ("'" +:+ type_name j +:+ "' object is not subscriptable"))
  end.

(** ** The scripted network *)

(** What the client reads of a [requests.models.Response]. [json_body] is
    what [.json()] returns ([None] when the body does not decode), [links]
    the parsed [Link] header. *)
Record Response : Type := mkResponse {
  status_code : Z;
  reason : string;
  text : string;
  json_body : option json;
  links : gmap string (gmap string string);
  url : string
}.

(** The keyword arguments a caller hands to the client's methods. *)
Record Kwargs : Type := mkKwargs {
  kw_headers : option (gmap string string);
  kw_params : option (gmap string json);
  kw_other : gmap string json
}.

(** One call [requests.get(url, headers=..., **kwargs)] as the transport
    receives it. [rq_params] is the [params] keyword, absent when the call
    does not pass one. *)
Record Request : Type := mkRequest {
  rq_url : string;
  rq_headers : gmap string string;
  rq_params : option (gmap string json);
  rq_other : gmap string json
}.

Record world : Type := mkWorld {
  pending : list Response;
  sent : list Request
}.

(** Computations that talk to the network. *)
Definition M (A : Type) : Type := world -> result A * world.

Definition ret {A} (a : A) : M A := fun w => (Ok a, w).
Definition raise {A} (e : pyexn) : M A := fun w => (Raise e, w).
Definition lift {A} (r : result A) : M A := fun w => (r, w).
Definition bind {A B} (m : M A) (k : A -> M B) : M B :=
  fun w =>
    match m w with
    | (Ok a, w') => k a w'
    | (Raise e, w') => (Raise e, w')
    end.

Notation "'letm' x := e 'in' k" := (bind e (fun x => k))
  (at level 10, x name, e at level 100, k at level 200).

Definition requests_get (rq : Request) : M Response :=
  fun w =>
    let log := sent w ++ [rq] in
    match pending w with
    | [] => (Raise ConnectionError, mkWorld [] log)
    | r :: rest => (Ok r, mkWorld rest log)
    end.

(** [Response.json()] *)
Definition resp_json (r : Response) : result json :=
  match json_body r with
  | Some j => Ok j
  | None => Raise JSONDecodeError
  end.

(** ** Calendar dates and times ([datetime]) *)

Record date : Type := mkDate { year : Z; month : Z; day : Z }.

Record datetime : Type := mkDatetime {
  dt_date : date;      (* [.date()] *)
  hour : Z;
  minute : Z;
  second : Z;
  microsecond : Z
}.

(** [a == b] and [a > b] on dates compare (year, month, day). *)
Definition date_eqb (a b : date) : bool :=
  (year a =? year b) && (month a =? month b) && (day a =? day b).

Definition date_gtb (a b : date) : bool :=
  (year b <? year a)
  || ((year a =? year b)
      && ((month b <? month a) || ((month a =? month b) && (day b <? day a)))).

Definition is_leap (y : Z) : bool :=
  (y mod 4 =? 0) && (negb (y mod 100 =? 0) || (y mod 400 =? 0)).

Definition days_before_year (y : Z) : Z :=
  let y := y - 1 in y * 365 + y / 4 - y / 100 + y / 400.

Definition days_in_month (y m : Z) : Z :=
  if (m =? 2) && is_leap y then 29
  else nth (Z.to_nat m) [0; 31; 28; 31; 30; 31; 30; 31; 31; 30; 31; 30; 31] 0.

Definition days_before_month (y m : Z) : Z :=
  nth (Z.to_nat m) [0; 0; 31; 59; 90; 120; 151; 181; 212; 243; 273; 304; 334] 0
  + (if (2 <? m) && is_leap y then 1 else 0).

(** The proleptic Gregorian ordinal of a date. *)
Definition ymd2ord (d : date) : Z :=
  days_before_year (year d) + days_before_month (year d) (month d) + day d.

Definition microseconds_of (t : datetime) : Z :=
  ((ymd2ord (dt_date t) * 86400
    + hour t * 3600 + minute t * 60 + second t) * 1000000) + microsecond t.

(** [(d1 - d0).total_seconds()] *)
Definition total_seconds (d1 d0 : datetime) : Q :=
  (inject_Z (microseconds_of d1 - microseconds_of d0) / inject_Z 1000000)%Q.

(** *** [strptime] on the timestamps GitHub sends

    [strptime_iso] reads the zero-padded form [YYYY-MM-DDTHH:MM:SSZ] of
    [TIME_FORMAT] and raises [ValueError] on anything else. The properties
    below that do not fix a timestamp hold for every [strptime]. *)

Definition digit_val (c : ascii) : option Z :=
  let n := Z.of_nat (nat_of_ascii c) in
  if (48 <=? n) && (n <=? 57) then Some (n - 48) else None.

Definition num2 (a b : ascii) : option Z :=
  match digit_val a, digit_val b with
  | Some x, Some y => Some (10 * x + y)
  | _, _ => None
  end.

Definition num4 (a b c d : ascii) : option Z :=
  match num2 a b, num2 c d with
  | Some x, Some y => Some (100 * x + y)
  | _, _ => None
  end.

Definition valid_datetime (t : datetime) : bool :=
  let d := dt_date t in
  (1 <=? year d) && (year d <=? 9999)
  && (1 <=? month d) && (month d <=? 12)
  && (1 <=? day d) && (day d <=? days_in_month (year d) (month d))
  && (0 <=? hour t) && (hour t <=? 23)
  && (0 <=? minute t) && (minute t <=? 59)
  && (0 <=? second t) && (second t <=? 59).

Definition TIME_FORMAT : string := "%Y-%m-%dT%H:%M:%SZ".

Definition strptime_iso (data_string format : string) : result datetime :=
  let bad := Raise (ValueError ("time data '" +:+ data_string
                                +:+ "' does not match format '" +:+ format +:+ "'")) in
  if negb (String.eqb format TIME_FORMAT) then bad else
  match list_ascii_of_string data_string with
  | [y1; y2; y3; y4; p1; m1; m2; p2; d1; d2; pT; h1; h2; p3; n1; n2; p4; s1; s2; pZ] =>
      if Ascii.eqb p1 "-" && Ascii.eqb p2 "-" && Ascii.eqb pT "T"
         && Ascii.eqb p3 ":" && Ascii.eqb p4 ":" && Ascii.eqb pZ "Z"
      then
        match num4 y1 y2 y3 y4, num2 m1 m2, num2 d1 d2,
              num2 h1 h2, num2 n1 n2, num2 s1 s2 with
        | Some y, Some m, Some d, Some h, Some n, Some sec =>
            let t := mkDatetime (mkDate y m d) h n sec 0 in
            if valid_datetime t then Ok t else bad
        | _, _, _, _, _, _ => bad
        end
      else bad
  | _ => bad
  end.

(** How the argument parser of a built-in method names a rejected
    argument: by its type, [None] by itself. *)
Definition arg_name (v : json) : string :=
  match v with
  | JNull => "None"
  | _ => type_name v
  end.

(** [datetime.datetime.strptime(v, format)] for a decoded JSON value [v]. *)
Definition py_strptime (strptime : string -> string -> result datetime)
    (v : json) (format : string) : result datetime :=
  match v with
  | JStr s => strptime s format
  | _ => Raise (TypeError ("strptime() argument 1 must be str, not " +:+ arg_name v))
  end.

(** ** [len], [numpy.mean] and [numpy.median] *)

(** The objects the client applies [len] to. *)
Inductive pyobj : Type :=
  | PJson (j : json)
  | PNone
  | PGenerator.

Definition of_optional (o : option json) : pyobj :=
  match o with
  | Some j => PJson j
  | None => PNone
  end.

Definition py_len (x : pyobj) : result Z :=
  match x with
  | PJson (JList l) => Ok (Z.of_nat (length l))
  | PJson (JDict kvs) => Ok (Z.of_nat (length kvs))
  | PJson (JStr s) => Ok (Z.of_nat (String.length s))
  | PJson j => Raise (TypeError ("object of type '" +:+ type_name j +:+ "' has no len()"))
  | PNone => Raise (TypeError "object of type 'NoneType' has no len()")
  | PGenerator => Raise (TypeError "object of type 'generator' has no len()")
  end.

Definition Qsum (l : list Q) : Q := fold_right Qplus (0 # 1)%Q l.

(** [None] stands for [nan], the mean and median of no values. *)
Definition np_mean (l : list Q) : option Q :=
  match l with
  | [] => None
  | _ :: _ => Some (Qsum l / inject_Z (Z.of_nat (length l)))%Q
  end.

Fixpoint Qinsert (x : Q) (l : list Q) : list Q :=
  match l with
  | [] => [x]
  | y :: l' => if Qle_bool x y then x :: l else y :: Qinsert x l'
  end.

Definition Qsort (l : list Q) : list Q := fold_right Qinsert [] l.

Definition np_median (l : list Q) : option Q :=
  let sorted := Qsort l in
  let n := length sorted in
  match n with
  | O => None
  | S _ =>
      if Nat.even n
      then Some ((nth (Nat.div n 2 - 1) sorted 0 + nth (Nat.div n 2) sorted 0)
                 / inject_Z 2)%Q
      else Some (nth (Nat.div n 2) sorted (0 # 1)%Q)
  end.

(** ** String operations used by [commit_count] *)

Definition is_digit (c : ascii) : bool :=
  match digit_val c with Some _ => true | None => false end.

Fixpoint strip_prefix (p s : string) : option string :=
  match p, s with
  | EmptyString, _ => Some s
  | String a p', String b s' => if Ascii.eqb a b then strip_prefix p' s' else None
  | String _ _, EmptyString => None
  end.

(** The longest run of digits at the head of [s], and what follows it. *)
Fixpoint span_digits (s : string) : string * string :=
  match s with
  | String c s' =>
      if is_digit c
      then let '(ds, tl) := span_digits s' in (String c ds, tl)
      else (EmptyString, s)
  | EmptyString => (EmptyString, EmptyString)
  end.

(** Whether [$] matches in front of [tl]: at the end of the string or
    before a newline that ends it. *)
Definition at_dollar (tl : string) : bool :=
  String.eqb tl EmptyString || String.eqb tl nl.

Definition match_page_here (s : string) : option string :=
  match strip_prefix "page=" s with
  | Some after =>
      let '(ds, tl) := span_digits after in
      if at_dollar tl then Some ("page=" +:+ ds) else None
  | None => None
  end.

(** [re.search(r'page=[0-9]*$', s)]: the text of the leftmost match
    ([match.group()]), or [None]. *)
Fixpoint re_search_page (s : string) : option string :=
  match match_page_here s with
  | Some g => Some g
  | None =>
      match s with
      | String _ s' => re_search_page s'
      | EmptyString => None
      end
  end.

(** [s.replace(old, new)] for a non-empty [old]; [skip] counts the
    characters of a match still to be dropped. *)
Fixpoint replace_go (old new : string) (skip : nat) (s : string) : string :=
  match s with
  | EmptyString => EmptyString
  | String c s' =>
      match skip with
      | S n => replace_go old new n s'
      | O =>
          match strip_prefix old s with
          | Some _ => new +:+ replace_go old new (String.length old - 1) s'
          | None => String c (replace_go old new O s')
          end
      end
  end.

(** [s.replace(new)] between every two characters when [old] is empty. *)
Fixpoint intersperse (new s : string) : string :=
  match s with
  | EmptyString => new
  | String c s' => new +:+ String c (intersperse new s')
  end.

(** [s.replace] applied to the arguments [args]: the method takes two (a
    third, the count, is not modelled) and raises on fewer. *)
Definition py_str_replace (s : string) (args : list string) : result string :=
  match args with
  | [old; new] =>
      Ok (if str_nonempty old then replace_go old new O s else intersperse new s)
  | _ =>
      Raise (TypeError ("replace expected at least 2 arguments, got "
                        +:+ str_of_int (Z.of_nat (length args))))
  end.

Fixpoint int_of_digits (acc : Z) (s : string) : option Z :=
  match s with
  | EmptyString => Some acc
  | String c s' =>
      match digit_val c with
      | Some d => int_of_digits (10 * acc + d) s'
      | None => None
      end
  end.

(** [int(s)] on a run of decimal digits. *)
Definition py_int (s : string) : result Z :=
  match s with
  | EmptyString => Raise (ValueError "invalid literal for int() with base 10: ''")
  | String _ _ =>
      match int_of_digits 0 s with
      | Some n => Ok n
      | None => Raise (ValueError ("invalid literal for int() with base 10: '"
                                   +:+ s +:+ "'"))
      end
  end.

(** Calling a [str] as a function. *)
Definition py_call_str (s : string) : result pyobj :=
  Raise (TypeError "'str' object is not callable").

(** ** The client *)

Module Github.

Definition BASE_REQ_format (owner repo : string) : string :=
  "https://api.github.com/repos/" +:+ owner +:+ "/" +:+ repo.

(** The attributes of a [Github] object. *)
Record t : Type := mk {
  base_req : string;
  token : option string
}.

(** [__init__(self, owner, repo, token=None)]; [env] is the process
    environment that [os.getenv] reads. *)
Definition __init__ (env : gmap string string) (owner repo : string)
    (token : option string) : result t :=
  let base_req := BASE_REQ_format owner repo in
  let self_token := token in
  let self_token :=
    match token with
    | None => env !! "GITHUB_TOKEN"
    | Some _ => self_token
    end in
  match token with
  | None =>
      Raise (OSError ("Could not find environment variable " +:+ dq
                      +:+ "GITHUB_TOKEN" +:+ dq +:+ "."))
  | Some _ => Ok (mk base_req self_token)
  end.

(** [f'token {self.token}'] *)
Definition token_header (self : t) : string :=
  "token " +:+ match token self with Some tok => tok | None => "None" end.

(** The first three lines of each request method:
    [headers = kwargs.pop('headers', {})], then the [Authorization] entry
    is set when the key is not there yet. *)
Definition auth_headers (self : t) (kwargs : Kwargs) : gmap string string :=
  let headers := default ∅ (kw_headers kwargs) in
  match headers !! "Authorization" with
  | None => <["Authorization" := token_header self]> headers
  | Some _ => headers
  end.

(** The message of the [IOError] raised on a status other than 200. *)
Definition status_msg (out : Response) (request : string) : string :=
  "Received unexpected status code " +:+ dq +:+ str_of_int (status_code out)
  +:+ dq +:+ " for reason " +:+ dq +:+ reason out +:+ dq +:+ "." +:+ nl
  +:+ "Request: " +:+ request +:+ nl +:+ "Output: " +:+ text out.

(** [get_request(self, request, **kwargs)]: [headers] is popped, what is
    left of [kwargs] (a [params] entry included) goes to [requests.get]. *)
Definition get_request (self : t) (request : string) (kwargs : Kwargs) : M Response :=
  let headers := auth_headers self kwargs in
  letm out := requests_get
    (mkRequest request headers (kw_params kwargs) (kw_other kwargs)) in
  if negb (status_code out =? 200)
  then raise (IOError (status_msg out request))
  else ret out.

(** [params = kwargs.pop('params', {})] followed by [params['page'] = 0]. *)
Definition params_init (kwargs : Kwargs) : gmap string json :=
  <["page" := JInt 0]> (default ∅ (kw_params kwargs)).

(** [params['page'] += 1]; the entry is an int since [params_init]. *)
Definition params_next (params : gmap string json) : gmap string json :=
  match params !! "page" with
  | Some (JInt n) => <["page" := JInt (n + 1)]> params
  | _ => params
  end.

(** The call [requests.get(request, headers=headers, **kwargs)] of the two
    pagination loops: both [headers] and [params] were popped from
    [kwargs], and [params] is not handed on. *)
Definition page_request (request : string) (headers : gmap string string)
    (kwargs : Kwargs) : Request :=
  mkRequest request headers None (kw_other kwargs).

(** *** [get_all] *)

(** [out.update(temp)] for a dict [temp]. *)
Definition py_update (out : json) (temp : list (string * json)) : result json :=
  match out with
  | JDict d => Ok (JDict (dict_update d temp))
  | _ => Raise (AttributeError
           ("'" +:+ type_name out +:+ "' object has no attribute 'update'"))
  end.

(** [out += temp] for a list [temp]. *)
Definition py_iadd_list (out : json) (temp : list json) : result json :=
  match out with
  | JList l => Ok (JList (l ++ temp))
  | JStr _ =>
      Raise (TypeError ("can only concatenate str (not " +:+ dq +:+ "list"
                        +:+ dq +:+ ") to str"))
  | _ => Raise (TypeError ("unsupported operand type(s) for +=: '"
                           +:+ type_name out +:+ "' and 'list'"))
  end.

Definition get_all_type_msg (temp : json) (request : string) : string :=
  "JSON output is type " +:+ dq +:+ type_repr temp +:+ dq
  +:+ ", not dict or list, could not parse output from request: "
  +:+ dq +:+ request +:+ dq.

(** The branches of the loop body that follow [if not any(temp): break]. *)
Definition merge_page (request : string) (out : option json) (temp : json)
    : result json :=
  match out with
  | None => Ok temp
  | Some o =>
      match temp with
      | JDict kvs => py_update o kvs
      | JList l => py_iadd_list o l
      | _ => Raise (TypeError (get_all_type_msg temp request))
      end
  end.

(** How one pass through a loop body ends. *)
Inductive flow (S : Type) : Type :=
  | Next (s : S)
  | Break (s : S).
Arguments Next {S} s.
Arguments Break {S} s.

(** The body of the [while True] loop of [get_all], from the status check
    on, for the response [temp] of this page. *)
Definition get_all_body (request : string) (out : option json) (temp : Response)
    : result (flow (option json)) :=
  if negb (status_code temp =? 200)
  then Raise (IOError (status_msg temp request))
  else
    letr temp := resp_json temp in
    letr some := py_any temp in
    if negb some then Ok (Break out)
    else letr out' := merge_page request out temp in Ok (Next (Some out')).

(** The loop, run against the responses still pending: the requests it
    issues, what it returns or raises, and the responses left unread. *)
Fixpoint get_all_loop (request : string) (headers : gmap string string)
    (kwargs : Kwargs) (params : gmap string json) (out : option json)
    (pending : list Response) : list Request * result (option json) * list Response :=
  let params := params_next params in
  let rq := page_request request headers kwargs in
  match pending with
  | [] => ([rq], Raise ConnectionError, [])
  | temp :: rest =>
      match get_all_body request out temp with
      | Raise e => ([rq], Raise e, rest)
      | Ok (Break out) => ([rq], Ok out, rest)
      | Ok (Next out) =>
          let '(log, r, rest') :=
            get_all_loop request headers kwargs params out rest in
          (rq :: log, r, rest')
      end
  end.

Definition get_all (self : t) (request : string) (kwargs : Kwargs)
    : M (option json) :=
  fun w =>
    let headers := auth_headers self kwargs in
    let params := params_init kwargs in
    let '(log, r, rest) :=
      get_all_loop request headers kwargs params None (pending w) in
    (r, mkWorld rest (sent w ++ log)).

(** *** [get_generator] *)

(** What a generator does when it is driven to the end: the requests it
    issues and the entries it yields, in order, closed by its return or by
    the exception it raises. A consumer that stops early has seen a prefix. *)
Inductive gen_trace : Type :=
  | GGet (rq : Request) (k : gen_trace)
  | GYield (entry : json) (k : gen_trace)
  | GReturn
  | GRaise (e : pyexn).

(** [for entry in temp: yield entry] *)
Fixpoint yield_each (temp : list json) (k : gen_trace) : gen_trace :=
  match temp with
  | [] => k
  | entry :: temp' => GYield entry (yield_each temp' k)
  end.

Definition get_generator_type_msg (temp : json) (request : string) : string :=
  "JSON output is type " +:+ dq +:+ type_repr temp +:+ dq
  +:+ ", not list, could not parse output from request: "
  +:+ dq +:+ request +:+ dq.

(** The loop body of [get_generator] up to the [for] loop: [Break] leaves
    the [while] loop, [Next temp] goes on to yield the entries of [temp]. *)
Definition get_generator_body (request : string) (temp : Response)
    : result (flow (list json)) :=
  if negb (status_code temp =? 200)
  then Raise (IOError (status_msg temp request))
  else
    letr temp := resp_json temp in
    letr some := py_any temp in
    if negb some then Ok (Break [])
    else
      match temp with
      | JList l => Ok (Next l)
      | _ => Raise (TypeError (get_generator_type_msg temp request))
      end.

Fixpoint get_generator_loop (request : string) (headers : gmap string string)
    (kwargs : Kwargs) (params : gmap string json) (pending : list Response)
    : gen_trace :=
  let params := params_next params in
  GGet (page_request request headers kwargs)
    match pending with
    | [] => GRaise ConnectionError
    | temp :: rest =>
        match get_generator_body request temp with
        | Raise e => GRaise e
        | Ok (Break _) => GReturn
        | Ok (Next l) =>
            yield_each l (get_generator_loop request headers kwargs params rest)
        end
    end.

Definition get_generator (self : t) (request : string) (kwargs : Kwargs)
    (pending : list Response) : gen_trace :=
  let headers := auth_headers self kwargs in
  let params := params_init kwargs in
  get_generator_loop request headers kwargs params pending.

(** The entries a generator yields, the requests it issues, and whether it
    ends by returning. *)
Fixpoint yielded (g : gen_trace) : list json :=
  match g with
  | GGet _ k => yielded k
  | GYield entry k => entry :: yielded k
  | GReturn | GRaise _ => []
  end.

Fixpoint requested (g : gen_trace) : list Request :=
  match g with
  | GGet rq k => rq :: requested k
  | GYield _ k => requested k
  | GReturn | GRaise _ => []
  end.

Fixpoint ending (g : gen_trace) : result unit :=
  match g with
  | GGet _ k | GYield _ k => ending k
  | GReturn => Ok tt
  | GRaise e => Raise e
  end.

(** [for entry in gen: body], with [body] threading the loop's variables.
    Returns the requests the generator issued while it was driven, the
    loop's outcome, and the generator where the loop left it: [Some k] when
    it is suspended at a [yield] with [k] still to run, [None] when it has
    finished. *)
Fixpoint for_gen {S : Type} (body : json -> S -> result (flow S)) (s : S)
    (g : gen_trace) : list Request * result S * option gen_trace :=
  match g with
  | GGet rq k =>
      let '(log, r, susp) := for_gen body s k in (rq :: log, r, susp)
  | GYield entry k =>
      match body entry s with
      | Raise e => ([], Raise e, Some k)
      | Ok (Break s') => ([], Ok s', Some k)
      | Ok (Next s') => for_gen body s' k
      end
  | GReturn => ([], Ok s, None)
  | GRaise e => ([], Raise e, None)
  end.

(** *** Endpoint helpers *)

(** The values of the dict [_issues_pulls] builds. *)
Inductive metric : Type :=
  | MInt (n : Z)
  | MFloat (x : option Q).

Section Helpers.

(** [datetime.datetime.strptime] and the reading of the clock by
    [datetime.datetime.now()]. *)
Variable strptime : string -> string -> result datetime.
Variable now : datetime.

(** The [if 'params' in kwargs] statement of [_issues_pulls]. *)
Definition with_state (kwargs : Kwargs) (state : string) : Kwargs :=
  match kw_params kwargs with
  | Some params =>
      mkKwargs (kw_headers kwargs) (Some (<["state" := JStr state]> params))
               (kw_other kwargs)
  | None =>
      mkKwargs (kw_headers kwargs) (Some {["state" := JStr state]})
               (kw_other kwargs)
  end.

(** The body of [for item in items], on the loop's variables [d1] and
    [lifetimes]. *)
Definition lifetime_body (state : string) (item : json)
    (vars : datetime * list Q) : result (flow (datetime * list Q)) :=
  let '(d1, lifetimes) := vars in
  letr created := py_getitem item "created_at" in
  letr d0 := py_strptime strptime created TIME_FORMAT in
  letr d1 :=
    (if String.eqb state "closed"
     then letr closed := py_getitem item "closed_at" in
          py_strptime strptime closed TIME_FORMAT
     else Ok d1) in
  let lifetime := (total_seconds d1 d0 / inject_Z (24 * 3600))%Q in
  Ok (Next (d1, lifetimes ++ [lifetime])).

(** [_issues_pulls] up to the end of its [for] loop: the requests made and
    the list [lifetimes]. *)
Definition issue_lifetimes (self : t) (option state : string) (kwargs : Kwargs)
    (pending : list Response) : list Request * result (list Q) :=
  let kwargs := with_state kwargs state in
  let request := base_req self +:+ "/" +:+ option in
  let items := get_generator self request kwargs pending in
  let d1 := now in
  let '(log, r, _) := for_gen (lifetime_body state) (d1, []) items in
  (log, letr vars := r in Ok (snd vars)).

(** The dict display [{f'{option}_{state}': ..., ...}] once [len(items)]
    has the value [count]: the entries are stored in the order written,
    the second and the third under the same key. *)
Definition lifetime_dict (option state : string) (count : Z) (lifetimes : list Q)
    : gmap string metric :=
  let out : gmap string metric := ∅ in
  let out := <[option +:+ "_" +:+ state := MInt count]> out in
  let out := <[option +:+ "_" +:+ state +:+ "_mean_lifetime"
               := MFloat (np_mean lifetimes)]> out in
  let out := <[option +:+ "_" +:+ state +:+ "_mean_lifetime"
               := MFloat (np_median lifetimes)]> out in
  out.

(** [_issues_pulls(self, option, state, **kwargs)]. [items] is the
    generator object; [len(items)] is the first value of the dict display
    to be evaluated. *)
Definition _issues_pulls (self : t) (option state : string) (kwargs : Kwargs)
    (pending : list Response) : list Request * result (gmap string metric) :=
  let '(log, r) := issue_lifetimes self option state kwargs pending in
  (log,
   letr lifetimes := r in
   letr count := py_len PGenerator in
   Ok (lifetime_dict option state count lifetimes)).

Definition issues_closed self kwargs := _issues_pulls self "issues" "closed" kwargs.
Definition issues_open self kwargs := _issues_pulls self "issues" "open" kwargs.
Definition pulls_closed self kwargs := _issues_pulls self "pulls" "closed" kwargs.
Definition pulls_open self kwargs := _issues_pulls self "pulls" "open" kwargs.

(** [out.at[date, 'commits'] += 1] on the table [out], one row per entry
    of [date_iter]: the row labelled [date] is incremented (every such row
    when [date_iter] repeats a date, [.at] then addressing them all). The
    counts are 64-bit in pandas; they stay far below that bound. *)
Definition at_incr (d : date) (out : list (date * Z)) : list (date * Z) :=
  map (fun row => if date_eqb (fst row) d then (fst row, snd row + 1) else row) out.

(** [for date in date_iter: ...] of [commits], on [out] and [stop]. *)
Fixpoint scan_dates (c_date : date) (date_iter : list date)
    (out : list (date * Z)) (stop : bool) : list (date * Z) * bool :=
  match date_iter with
  | [] => (out, stop)
  | d :: rest =>
      if date_eqb c_date d then (at_incr d out, false)
      else if date_gtb c_date d then scan_dates c_date rest out false
      else scan_dates c_date rest out stop
  end.

Definition commit_date (com : json) : result date :=
  letr commit := py_getitem com "commit" in
  letr author := py_getitem commit "author" in
  letr c_date := py_getitem author "date" in
  letr c_date := py_strptime strptime c_date TIME_FORMAT in
  Ok (dt_date c_date).

(** The body of [for com in commit_iter]. *)
Definition commits_body (date_iter : list date) (search_all : bool)
    (com : json) (out : list (date * Z)) : result (flow (list (date * Z))) :=
  letr c_date := commit_date com in
  let '(out, stop) := scan_dates c_date date_iter out true in
  if stop && negb search_all then Ok (Break out) else Ok (Next out).

(** [commits(self, date_iter, search_all, **kwargs)]: the requests made,
    the table returned (one row per entry of [date_iter], with its count),
    and the generator [commit_iter] as the loop left it. *)
Definition commits (self : t) (date_iter : list date) (search_all : bool)
    (kwargs : Kwargs) (pending : list Response)
    : list Request * result (list (date * Z)) * option gen_trace :=
  let out := map (fun d => (d, 0)) date_iter in
  let request := base_req self +:+ "/commits" in
  let commit_iter := get_generator self request kwargs pending in
  for_gen (commits_body date_iter search_all) out commit_iter.

End Helpers.

Definition forks (self : t) (kwargs : Kwargs) : M Z :=
  let request := base_req self +:+ "/forks" in
  letm out := get_all self request kwargs in
  lift (py_len (of_optional out)).

Definition stargazers (self : t) (kwargs : Kwargs) : M Z :=
  let request := base_req self +:+ "/stargazers" in
  letm out := get_all self request kwargs in
  lift (py_len (of_optional out)).

Definition subscribers (self : t) (kwargs : Kwargs) : M Z :=
  let request := base_req self +:+ "/subscribers" in
  letm out := get_all self request kwargs in
  lift (py_len (of_optional out)).

Definition contributors (self : t) (kwargs : Kwargs) : M Z :=
  let request := base_req self +:+ "/contributors" in
  letm out := get_all self request kwargs in
  lift (py_len (of_optional out)).

(** [req.links['last']['url']] *)
Definition links_last_url (req : Response) : result string :=
  match links req !! "last" with
  | None => Raise (KeyError "last")
  | Some last =>
      match last !! "url" with
      | None => Raise (KeyError "url")
      | Some u => Ok u
      end
  end.

(** [commit_count(self, **kwargs)] *)
Definition commit_count (self : t) (kwargs : Kwargs) : M Z :=
  let request := base_req self +:+ "/commits" in
  letm req := get_request self request kwargs in
  letm last_url := lift (links_last_url req) in
  match re_search_page last_url with
  | None =>
      raise (RuntimeError ("Could not find page=[0-9]*$ in url: " +:+ last_url))
  | Some group =>
      letm digits := lift (py_str_replace group ["page="]) in
      letm num_pages := lift (py_int digits) in
      letm last_page := get_request self last_url kwargs in
      letm first := lift (resp_json req) in
      letm per_page := lift (py_len (PJson first)) in
      letm called := lift (py_call_str (url last_page)) in
      letm in_last := lift (py_len called) in
      ret (per_page * (num_pages - 1) + in_last)
  end.

(** *** Traffic *)

(** [out[key]] for what [get_all] returned, [None] included. *)
Definition py_getitem_optional (out : option json) (key : string) : result json :=
  match out with
  | Some j => py_getitem j key
  | None => Raise (TypeError "'NoneType' object is not subscriptable")
  end.

Section Traffic.

(** The pandas part of [_traffic], from [pd.DataFrame(...)] to the renaming
    of the columns: it turns the records found under the key [option] into
    the table returned. *)
Variable frame : Type.
Variable to_frame : string -> json -> result frame.

(** [_traffic(self, option, **kwargs)] *)
Definition _traffic (self : t) (option : string) (kwargs : Kwargs) : M frame :=
  let request := base_req self +:+ "/traffic/" +:+ option in
  letm out := get_all self request kwargs in
  letm records := lift (py_getitem_optional out option) in
  lift (to_frame option records).

Definition clones (self : t) (kwargs : Kwargs) : M frame :=
  _traffic self "clones" kwargs.

Definition views (self : t) (kwargs : Kwargs) : M frame :=
  _traffic self "views" kwargs.

End Traffic.

End Github.

(** * The command line ([osos/cli.py]) *)

Module Cli.

(** A cell of the configuration table, as [row.to_dict()] holds it. *)
Inductive cval : Type :=
  | VStr (s : string)
  | VNum (q : Q)
  | VNaN.

(** What [main] reads of the [DataFrame] returned by [pd.read_csv]: the
    column labels, and each row as the dict [row.to_dict()]. *)
Record DataFrame : Type := mkDataFrame {
  columns : list string;
  rows : list (gmap string cval)
}.

(** The arguments of one [Osos(git_owner, git_repo, pypi_name=...)]
    followed by [.update(fpath_out)]. *)
Record Job : Type := mkJob {
  job_owner : cval;
  job_repo : cval;
  job_pypi : option cval;
  job_fpath : cval
}.

Section Main.

(** The collaborators of [main]: the exceptions they raise, the state they
    act on (the output files), [os.path.exists], [pd.read_csv], and the
    construction and update of an [Osos] object. *)
Variable exn : Type.
Variable St : Type.
Variable path_exists : string -> bool.
Variable read_csv : string -> St -> (exn + DataFrame).
Variable osos_update : Job -> St -> (exn + unit) * St.

Inductive error : Type :=
  | AssertionError (msg : string)
  | KeyError (msg : string)
  | TypeError (msg : string)
  | Raised (e : exn).

(** [str.endswith] *)
Fixpoint endswith_go (rev_suffix rev_s : list ascii) : bool :=
  match rev_suffix, rev_s with
  | [], _ => true
  | a :: p, b :: r => Ascii.eqb a b && endswith_go p r
  | _ :: _, [] => false
  end.

Definition endswith (s suffix : string) : bool :=
  endswith_go (rev (list_ascii_of_string suffix)) (rev (list_ascii_of_string s)).

Definition required : list string := ["name"; "git_owner"; "git_repo"; "fpath_out"].

(** [r in config]: membership among the column labels. *)
Definition in_columns (config : DataFrame) (r : string) : bool :=
  existsb (String.eqb r) (columns config).

(** [[r for r in required if r not in config]] *)
Definition missing_columns (config : DataFrame) : list string :=
  List.filter (fun r => negb (in_columns config r)) required.

(** [any(missing)] on a list of str. *)
Definition any_str (l : list string) : bool := existsb str_nonempty l.

(** [repr] of a list of plain str, as the f-string prints [missing]. *)
Fixpoint repr_items (l : list string) : string :=
  match l with
  | [] => EmptyString
  | [x] => "'" +:+ x +:+ "'"
  | x :: l' => "'" +:+ x +:+ "', " +:+ repr_items l'
  end.

Definition repr_list (l : list string) : string := "[" +:+ repr_items l +:+ "]".

(** [row[key]] on the dict of a row. *)
Definition row_getitem (row : gmap string cval) (key : string) : error + cval :=
  match row !! key with
  | Some v => inr v
  | None => inl (KeyError key)
  end.

(** The arguments the loop body takes from one row. *)
Definition job_of_row (row : gmap string cval) : error + Job :=
  match row_getitem row "git_owner" with
  | inl e => inl e
  | inr owner =>
      match row_getitem row "git_repo" with
      | inl e => inl e
      | inr repo =>
          let pypi := row !! "pypi_name" in
          match row_getitem row "fpath_out" with
          | inl e => inl e
          | inr fpath => inr (mkJob owner repo pypi fpath)
          end
      end
  end.

(** [Osos(...)] and [osos.update(...)] for one job. *)
Definition run_job (job : Job) (st : St) : option error * St :=
  match osos_update job st with
  | (inl e, st') => (Some (Raised e), st')
  | (inr _, st') => (None, st')
  end.

(** [for _, row in config.iterrows(): ...]: [None] when the loop ends,
    the exception that left it otherwise. *)
Fixpoint run_rows (rows : list (gmap string cval)) (st : St) : option error * St :=
  match rows with
  | [] => (None, st)
  | row :: rest =>
      match job_of_row row with
      | inl e => (Some e, st)
      | inr job =>
          match run_job job st with
          | (Some e, st') => (Some e, st')
          | (None, st') => run_rows rest st'
          end
      end
  end.

Definition assert_msg : string :=
  "Need to input either config or (git_owner & git_repo & fpath_out)".

(** The body of [main]; the logger calls are left out. [None] is a normal
    return. *)
Definition main (config git_owner git_repo pypi_name fpath_out : option string)
    (verbose : bool) (st : St) : option error * St :=
  let c1 := bool_decide (is_Some config) in
  let c2 := bool_decide (is_Some git_owner) && bool_decide (is_Some git_repo)
            && bool_decide (is_Some fpath_out) in
  if negb (c1 || c2) then (Some (AssertionError assert_msg), st)
  else if c2 && negb c1 then
    match git_owner, git_repo, fpath_out with
    | Some owner, Some repo, Some fpath =>
        run_job (mkJob (VStr owner) (VStr repo) (VStr <$> pypi_name) (VStr fpath)) st
    | _, _, _ => (Some (AssertionError assert_msg), st)
    end
  else
    match config with
    | None =>
        (Some (TypeError "stat: path should be string, bytes, os.PathLike or integer, not NoneType"), st)
    | Some path =>
        if negb (path_exists path)
        then (Some (AssertionError "config must be a valid filepath"), st)
        else if negb (endswith path ".csv")
        then (Some (AssertionError "config must be .csv"), st)
        else
          match read_csv path st with
          | inl e => (Some (Raised e), st)
          | inr config =>
              let missing := missing_columns config in
              if any_str missing
              then (Some (KeyError ("Config had missing required columns: "
                                    +:+ repr_list missing)), st)
              else run_rows (rows config) st
          end
    end.

End Main.

End Cli.

(** * The lifetimes of [_issues_pulls] in the interpreter's floats

    [lifetime = (d1 - d0).total_seconds() / (24 * 3600)] is computed in
    doubles: [total_seconds] returns a float and the division rounds. The
    loop of [_issues_pulls] is given here over any type of floats with
    these two operations; [Github.lifetime_body] is its instance at exact
    rational arithmetic. *)

Section FloatLifetimes.

Variable float : Type.
Variable total_seconds_float : datetime -> datetime -> float.
Variable float_div_int : float -> Z -> float.
Variable strptime : string -> string -> result datetime.
Variable now : datetime.

(** The body of [for item in items], on [d1] and [lifetimes]. *)
Definition lifetime_body_float (state : string) (item : json)
    (vars : datetime * list float) : result (Github.flow (datetime * list float)) :=
  let '(d1, lifetimes) := vars in
  letr created := py_getitem item "created_at" in
  letr d0 := py_strptime strptime created TIME_FORMAT in
  letr d1 :=
    (if String.eqb state "closed"
     then letr closed := py_getitem item "closed_at" in
          py_strptime strptime closed TIME_FORMAT
     else Ok d1) in
  let lifetime := float_div_int (total_seconds_float d1 d0) (24 * 3600) in
  Ok (Github.Next (d1, lifetimes ++ [lifetime])).

(** [_issues_pulls] up to the end of its [for] loop. *)
Definition issue_lifetimes_float (self : Github.t) (option state : string)
    (kwargs : Kwargs) (pending : list Response)
    : list Request * result (list float) :=
  let kwargs := Github.with_state kwargs state in
  let request := Github.base_req self +:+ "/" +:+ option in
  let items := Github.get_generator self request kwargs pending in
  let d1 := now in
  let '(log, r, _) := Github.for_gen (lifetime_body_float state) (d1, []) items in
  (log, letr vars := r in Ok (snd vars)).

End FloatLifetimes.

(** * Vocabulary of the properties *)

Import Github.

(** The requests a computation adds to the record of the network. *)
Definition issued {A} (m : M A) (w : world) : list Request :=
  drop (length (sent w)) (sent (snd (m w))).

(** A page served with status 200 whose body is a list with a truthy
    entry: the page both loops accept and go on from. *)
Definition list_page (r : Response) (p : list json) : Prop :=
  status_code r = 200 /\ json_body r = Some (JList p) /\ existsb truthy p = true.

(** The last page of a listing: status 200 and the empty list. *)
Definition empty_page (r : Response) : Prop :=
  status_code r = 200 /\ json_body r = Some (JList []).

(** [part] occurs in [msg]. *)
Definition carries (msg part : string) : Prop :=
  exists before after, msg = before +:+ part +:+ after.

(** [c] is strictly earlier than every date of [date_iter]. *)
Definition earlier_than_all (date_iter : list date) (c : date) : bool :=
  forallb (fun d => date_gtb d c) date_iter.

(** How many of the dates [ds] are the date [d]. *)
Definition count_date (d : date) (ds : list date) : Z :=
  Z.of_nat (length (List.filter (date_eqb d) ds)).

(** The table that counts, for each row of [date_iter], the commits made
    on its date among those dated [ds]. *)
Definition tally (date_iter ds : list date) : list (date * Z) :=
  map (fun d => (d, count_date d ds)) date_iter.

(** Reverse chronological order: no commit is later than the one before. *)
Definition descending (ds : list date) : Prop :=
  Sorted (fun a b => date_gtb b a = false) ds.

(** The commits [coms] are dated [dates], one by one. *)
Definition dated (strptime : string -> string -> result datetime)
    (coms : list json) (dates : list date) : Prop :=
  Forall2 (fun com d => commit_date strptime com = Ok d) coms dates.

(** None of [dates] is earlier than every date of [date_iter]. *)
Definition not_earlier (date_iter dates : list date) : Prop :=
  Forall (fun d => earlier_than_all date_iter d = false) dates.

(** A page served with status 200 whose body is a mapping with a
    non-empty key: the mapping page [get_all] goes on from. *)
Definition dict_page (r : Response) (d : list (string * json)) : Prop :=
  status_code r = 200 /\ json_body r = Some (JDict d)
  /\ existsb (fun kv => str_nonempty (fst kv)) d = true.

(** A page served with status 200 that has a truthy element, whatever
    its type. *)
Definition truthy_page (r : Response) : Prop :=
  status_code r = 200 /\ exists j, json_body r = Some j /\ py_any j = Ok true.

(** A page served with status 200 that has no truthy element. *)
Definition closing_page (r : Response) : Prop :=
  status_code r = 200 /\ exists j, json_body r = Some j /\ py_any j = Ok false.

(** The keys of a decoded JSON object are distinct. *)
Definition unique_keys (d : list (string * json)) : Prop := NoDup (map fst d).

(** The value of [k] in the last of the mappings [pages] that has [k]. *)
Fixpoint lookup_pages (k : string) (pages : list (list (string * json)))
    : option json :=
  match pages with
  | [] => None
  | d :: later =>
      match lookup_pages k later with
      | Some v => Some v
      | None => dict_get k d
      end
  end.

(** The two timestamps [_issues_pulls] subtracts for [item]: [d0] read
    from [created_at], and [d1] read from [closed_at] when [state] is
    [closed], the reading of the clock otherwise. *)
Definition timed (strptime : string -> string -> result datetime)
    (now : datetime) (state : string) (item : json) (times : datetime * datetime)
    : Prop :=
  (letr created := py_getitem item "created_at" in
   py_strptime strptime created TIME_FORMAT) = Ok (fst times)
  /\ (if String.eqb state "closed"
      then (letr closed := py_getitem item "closed_at" in
            py_strptime strptime closed TIME_FORMAT) = Ok (snd times)
      else snd times = now).

(** The days from [d0] to [d1]. *)
Definition days_between (times : datetime * datetime) : Q :=
  (total_seconds (snd times) (fst times) / inject_Z (24 * 3600))%Q.

(** Every character of [s] is a decimal digit. *)
Fixpoint all_digits (s : string) : bool :=
  match s with
  | EmptyString => true
  | String c s' => is_digit c && all_digits s'
  end.

(** The number of letters [p] in a string. *)
Fixpoint count_p (s : string) : nat :=
  match s with
  | EmptyString => O
  | String c s' => ((if Ascii.eqb c "p" then 1 else 0) + count_p s')%nat
  end.

(** * Properties *)

(** ** The embedding at work *)

Example re_search_page_last :
  re_search_page "https://api.github.com/repositories/1/commits?per_page=5&page=34"
  = Some "page=34".
Proof. reflexivity. Qed.

Example re_search_page_inside_per_page :
  re_search_page "https://api.github.com/repositories/1/commits?page=34&per_page=5"
  = Some "page=5".
Proof. reflexivity. Qed.

Example re_search_page_not_at_end :
  re_search_page "https://api.github.com/repositories/1/commits?page=34&sha=main"
  = None.
Proof. reflexivity. Qed.

Example str_replace_two_arguments :
  py_str_replace "page=34" ["page="; EmptyString] = Ok "34"
  /\ py_int "34" = Ok 34.
Proof. split; reflexivity. Qed.

Example strptime_iso_reads :
  strptime_iso "2024-01-03T12:00:00Z" TIME_FORMAT
  = Ok (mkDatetime (mkDate 2024 1 3) 12 0 0 0)
  /\ is_ok (strptime_iso "2024-02-30T12:00:00Z" TIME_FORMAT) = false
  /\ is_ok (strptime_iso "2024-1-3T12:00:00Z" TIME_FORMAT) = false.
Proof. repeat split. Qed.

Example total_seconds_over_a_leap_day :
  (total_seconds (mkDatetime (mkDate 2024 3 1) 0 0 0 0)
                 (mkDatetime (mkDate 2024 2 28) 0 0 0 0)
   == inject_Z (2 * 86400))%Q.
Proof. reflexivity. Qed.

Example median_and_mean :
  (exists m, np_median [(3 # 1)%Q; (1 # 1)%Q; (4 # 1)%Q; (2 # 1)%Q] = Some m
             /\ (m == 5 # 2)%Q)
  /\ (exists m, np_mean [(3 # 1)%Q; (1 # 1)%Q; (2 # 1)%Q] = Some m
                /\ (m == 2 # 1)%Q)
  /\ np_mean [] = None.
Proof.
  split; [| split]; [eexists; split; reflexivity .. | reflexivity].
Qed.

Example mapping_pages_are_merged_by_key :
  let self := mk (BASE_REQ_format "NREL" "reV") (Some "abc") in
  let page j := mkResponse 200 "OK" "" (Some j) ∅ "" in
  (get_all self "u" (mkKwargs None None ∅)
     (mkWorld [page (JDict [("a", JInt 1); ("b", JInt 2)]);
               page (JDict [("b", JInt 3); ("c", JInt 4)]);
               page (JDict [])] [])).1
  = Ok (Some (JDict [("a", JInt 1); ("b", JInt 3); ("c", JInt 4)])).
Proof. reflexivity. Qed.

Lemma drop_length_app {A} (l k : list A) : drop (length l) (l ++ k) = k.
Proof. induction l as [|x l IH]; [reflexivity | exact IH]. Qed.

Lemma issued_get_request self request kwargs w :
  issued (get_request self request kwargs) w
  = [mkRequest request (auth_headers self kwargs) (kw_params kwargs) (kw_other kwargs)].
Proof.
  unfold issued, get_request, bind, requests_get.
  destruct (pending w) as [|r rest]; simpl.
  - apply drop_length_app.
  - destruct (negb (status_code r =? 200)); simpl; apply drop_length_app.
Qed.

Lemma issued_get_all self request kwargs w :
  issued (get_all self request kwargs) w
  = (get_all_loop request (auth_headers self kwargs) kwargs
       (params_init kwargs) None (pending w)).1.1.
Proof.
  unfold issued, get_all.
  destruct (get_all_loop _ _ _ _ _ _) as [[log r] rest]; simpl.
  apply drop_length_app.
Qed.

(** Every pass of either pagination loop sends the same request, built
    from the URL, the headers and the keyword arguments left after
    [headers] and [params] were popped: no [params] goes out. *)
Lemma get_all_loop_requests request headers kwargs pending :
  forall params out,
    Forall (eq (page_request request headers kwargs))
      (get_all_loop request headers kwargs params out pending).1.1
    /\ (get_all_loop request headers kwargs params out pending).1.1 <> [].
Proof.
  induction pending as [|temp rest IH]; intros params out; simpl.
  - split; [repeat constructor | discriminate].
  - destruct (get_all_body request out temp) as [[out'|out']|e]; simpl;
      try (split; [repeat constructor | discriminate]).
    specialize (IH (params_next params) out').
    destruct (get_all_loop _ _ _ _ _ rest) as [[log r] rest'].
    simpl in *. split; [constructor; tauto | discriminate].
Qed.

Lemma requested_yield_each l k : requested (yield_each l k) = requested k.
Proof. induction l as [|x l IH]; [reflexivity | exact IH]. Qed.

Lemma yielded_yield_each l k : yielded (yield_each l k) = l ++ yielded k.
Proof. induction l as [|x l IH]; [reflexivity | simpl; now rewrite IH]. Qed.

Lemma ending_yield_each l k : ending (yield_each l k) = ending k.
Proof. induction l as [|x l IH]; [reflexivity | exact IH]. Qed.

Lemma get_generator_loop_requests request headers kwargs pending :
  forall params,
    Forall (eq (page_request request headers kwargs))
      (requested (get_generator_loop request headers kwargs params pending))
    /\ requested (get_generator_loop request headers kwargs params pending) <> [].
Proof.
  induction pending as [|temp rest IH]; intros params; simpl.
  - split; [repeat constructor | discriminate].
  - split; [| discriminate]. constructor; [reflexivity |].
    destruct (get_generator_body request temp) as [[l|l]|e]; simpl;
      try constructor.
    rewrite requested_yield_each. apply IH.
Qed.

(** ** Requests of the pagination loops *)

Lemma pagination_requests self request kwargs w :
  let rq := page_request request (auth_headers self kwargs) kwargs in
  Forall (eq rq) (issued (get_all self request kwargs) w)
  /\ issued (get_all self request kwargs) w <> []
  /\ Forall (eq rq) (requested (get_generator self request kwargs (pending w)))
  /\ requested (get_generator self request kwargs (pending w)) <> [].
Proof.
  cbv zeta. rewrite issued_get_all. unfold get_generator.
  pose proof (get_all_loop_requests request (auth_headers self kwargs) kwargs
                (pending w) (params_init kwargs) None) as [Ha Ha'].
  pose proof (get_generator_loop_requests request (auth_headers self kwargs)
                kwargs (pending w) (params_init kwargs)) as [Hg Hg'].
  repeat split; assumption.
Qed.

(** C1. The claim: [get_generator] and [get_all] send GET requests with a
    [page] parameter counting up from 1 and with the caller's query
    parameters, until a terminating page is fetched. The code: [params] is
    popped from [kwargs] and counted up, but not handed to [requests.get];
    every request of either loop is the same request, whose [params] is
    absent, whatever the caller supplied. Each loop sends at least one. *)
Theorem pagination_requests_carry_no_params self request kwargs w :
  let rq := page_request request (auth_headers self kwargs) kwargs in
  rq_params rq = None
  /\ Forall (eq rq) (issued (get_all self request kwargs) w)
  /\ issued (get_all self request kwargs) w <> []
  /\ Forall (eq rq) (requested (get_generator self request kwargs (pending w)))
  /\ requested (get_generator self request kwargs (pending w)) <> [].
Proof.
  cbv zeta. split; [reflexivity |]. apply pagination_requests.
Qed.

(** The open issues of a repository, asked for with [state=open], two
    pages long: three identical requests go out, none with parameters. *)
Example get_all_open_issues_requests :
  let self := mk (BASE_REQ_format "NREL" "reV") (Some "abc") in
  let kwargs := mkKwargs None (Some {["state" := JStr "open"]}) ∅ in
  let page j := mkResponse 200 "OK" "" (Some j) ∅ "" in
  let rq := mkRequest "https://api.github.com/repos/NREL/reV/issues"
              {["Authorization" := "token abc"]} None ∅ in
  issued (get_all self (base_req self +:+ "/issues") kwargs)
    (mkWorld [page (JList [JInt 1]); page (JList [JInt 2]); page (JList [])] [])
  = [rq; rq; rq].
Proof. vm_compute. reflexivity. Qed.

(** ** The [Authorization] header *)

Lemma auth_headers_supplied self kwargs v :
  default ∅ (kw_headers kwargs) !! "Authorization" = Some v ->
  auth_headers self kwargs = default ∅ (kw_headers kwargs).
Proof. intros H. unfold auth_headers. now rewrite H. Qed.

Lemma auth_headers_missing self kwargs :
  default ∅ (kw_headers kwargs) !! "Authorization" = None ->
  auth_headers self kwargs
  = <["Authorization" := token_header self]> (default ∅ (kw_headers kwargs)).
Proof. intros H. unfold auth_headers. now rewrite H. Qed.

Lemma requests_headers self request kwargs w :
  Forall (fun rq => rq_headers rq = auth_headers self kwargs)
    (issued (get_request self request kwargs) w
     ++ issued (get_all self request kwargs) w
     ++ requested (get_generator self request kwargs (pending w))).
Proof.
  destruct (pagination_requests self request kwargs w) as (Ha & _ & Hg & _).
  rewrite issued_get_request.
  rewrite !Forall_app. repeat split.
  - repeat constructor.
  - eapply Forall_impl; [exact Ha |]. now intros rq <-.
  - eapply Forall_impl; [exact Hg |]. now intros rq <-.
Qed.

(** C10. When the caller's [headers] keyword holds an [Authorization]
    entry, every request of [get_request], [get_all] and [get_generator]
    goes out with exactly the caller's headers; when it holds none (or no
    [headers] keyword is given), with the caller's headers plus
    [Authorization: token <token>]. Each method sends at least one
    request. *)
Theorem caller_authorization_header_is_kept self request kwargs w :
  let headers := default ∅ (kw_headers kwargs) in
  let reqs := issued (get_request self request kwargs) w
              ++ issued (get_all self request kwargs) w
              ++ requested (get_generator self request kwargs (pending w)) in
  (forall v, headers !! "Authorization" = Some v ->
     Forall (fun rq => rq_headers rq = headers) reqs)
  /\ (headers !! "Authorization" = None ->
      Forall (fun rq => rq_headers rq
                        = <["Authorization" := token_header self]> headers) reqs)
  /\ issued (get_request self request kwargs) w <> []
  /\ issued (get_all self request kwargs) w <> []
  /\ requested (get_generator self request kwargs (pending w)) <> [].
Proof.
  cbv zeta.
  pose proof (requests_headers self request kwargs w) as H.
  destruct (pagination_requests self request kwargs w) as (_ & Ha & _ & Hg).
  repeat split; try assumption.
  - intros v Hv. now rewrite <- (auth_headers_supplied self kwargs v Hv).
  - intros Hn. now rewrite <- (auth_headers_missing self kwargs Hn).
  - rewrite issued_get_request. discriminate.
Qed.

Lemma caller_authorization_header_is_kept_witness :
  let self := mk (BASE_REQ_format "NREL" "reV") (Some "abc") in
  let hs : gmap string string := {["Authorization" := "Bearer xyz"]} in
  let kwargs := mkKwargs (Some hs) None ∅ in
  let w := mkWorld [mkResponse 200 "OK" "" (Some (JList [])) ∅ ""] [] in
  hs !! "Authorization" = Some "Bearer xyz"
  /\ Forall (fun rq => rq_headers rq = hs)
       (issued (get_request self "u" kwargs) w
        ++ issued (get_all self "u" kwargs) w
        ++ requested (get_generator self "u" kwargs (pending w))).
Proof.
  cbv zeta. split; [reflexivity |].
  exact (proj1 (caller_authorization_header_is_kept
                  (mk (BASE_REQ_format "NREL" "reV") (Some "abc")) "u"
                  (mkKwargs (Some {["Authorization" := "Bearer xyz"]}) None ∅)
                  (mkWorld [mkResponse 200 "OK" "" (Some (JList [])) ∅ ""] []))
               "Bearer xyz" eq_refl).
Defined.

(** ** The credential *)

(** C3. The claim: without an explicit token the constructor takes the
    token from [GITHUB_TOKEN] and fails only when that is unset too. The
    code: the second test is on the argument [token] again, not on
    [self.token], so without an explicit token the constructor raises
    whatever the environment holds; with one it succeeds. *)
Theorem init_without_token_raises env owner repo :
  __init__ env owner repo None
  = Raise (OSError ("Could not find environment variable " +:+ dq
                    +:+ "GITHUB_TOKEN" +:+ dq +:+ "."))
  /\ __init__ (<["GITHUB_TOKEN" := "abc"]> env) owner repo None
     = Raise (OSError ("Could not find environment variable " +:+ dq
                       +:+ "GITHUB_TOKEN" +:+ dq +:+ "."))
  /\ forall tok,
       __init__ env owner repo (Some tok)
       = Ok (mk (BASE_REQ_format owner repo) (Some tok)).
Proof. repeat split. Qed.

(** ** Counting endpoints *)

(** C6. The claim: [forks], [stargazers], [subscribers] and
    [contributors] return the number of merged records, 0 when every page
    is empty. The code: when the first page is the empty list, [get_all]
    leaves its loop with [out] still [None], and [len(None)] raises. *)
Theorem counts_of_no_records_raise self kwargs reason text links url rest log :
  let w := mkWorld (mkResponse 200 reason text (Some (JList [])) links url :: rest)
                   log in
  let e := TypeError "object of type 'NoneType' has no len()" in
  (get_all self (base_req self +:+ "/forks") kwargs w).1 = Ok None
  /\ (forks self kwargs w).1 = Raise e
  /\ (stargazers self kwargs w).1 = Raise e
  /\ (subscribers self kwargs w).1 = Raise e
  /\ (contributors self kwargs w).1 = Raise e.
Proof. cbv zeta. repeat split. Qed.

(** C5. The claim: [commit_count] returns
    [items_per_page * (last_page - 1) + items_in_last_page], and a link
    without a last-page number is a fatal error. The code: no call returns
    a number. A link without [page=<digits>] at its end raises
    [RuntimeError], as claimed; a response without a [last] link raises
    [KeyError]; and when the page number is found, [str.replace] is called
    with one argument and raises [TypeError] before the last page is
    fetched. *)
Theorem commit_count_never_returns self kwargs w :
  is_ok (commit_count self kwargs w).1 = false
  /\ (let first :=
        mkResponse 200 "OK" "" (Some (JList [JDict []; JDict []]))
          {["last" := {["url" := "https://api.github.com/repositories/1/commits?page=3"]}]}
          "" in
      commit_count self kwargs (mkWorld (first :: pending w) (sent w))
      = (Raise (TypeError "replace expected at least 2 arguments, got 1"),
         mkWorld (pending w)
           (sent w ++ [mkRequest (base_req self +:+ "/commits")
                         (auth_headers self kwargs) (kw_params kwargs)
                         (kw_other kwargs)])))
  /\ (let first :=
        mkResponse 200 "OK" "" (Some (JList [JDict []; JDict []]))
          {["last" := {["url" := "https://api.github.com/repositories/1/commits"]}]}
          "" in
      (commit_count self kwargs (mkWorld (first :: pending w) (sent w))).1
      = Raise (RuntimeError
          "Could not find page=[0-9]*$ in url: https://api.github.com/repositories/1/commits")).
Proof.
  split; [| split; reflexivity].
  unfold commit_count, bind, lift, raise.
  destruct (get_request self _ kwargs w) as [[req|e] w']; [| reflexivity].
  destruct (links_last_url req) as [last_url|e]; [| reflexivity].
  destruct (re_search_page last_url) as [group|]; reflexivity.
Qed.

(** ** Issue and pull-request lifetimes *)

(** C2. The claim: [_issues_pulls] computes each item's lifetime in days
    and returns the item count with the lifetimes' mean and median. The
    code: the lifetimes are computed as claimed (2.5 days for an item
    created at 2024-01-01T00:00:00Z and closed at 2024-01-03T12:00:00Z),
    but [items] is the generator, [len(items)] raises, and no call
    returns. *)
Theorem issues_pulls_never_returns strptime now self option state kwargs pending :
  is_ok (_issues_pulls strptime now self option state kwargs pending).2 = false
  /\ (let item := JDict [("created_at", JStr "2024-01-01T00:00:00Z");
                         ("closed_at", JStr "2024-01-03T12:00:00Z")] in
      let page j := mkResponse 200 "OK" "" (Some j) ∅ "" in
      let served := [page (JList [item]); page (JList [])] in
      (exists lifetime,
         (issue_lifetimes strptime_iso now self "issues" "closed" kwargs served).2
         = Ok [lifetime]
         /\ (lifetime == 5 # 2)%Q)
      /\ (_issues_pulls strptime_iso now self "issues" "closed" kwargs served).2
         = Raise (TypeError "object of type 'generator' has no len()")).
Proof.
  split.
  - unfold _issues_pulls.
    destruct (issue_lifetimes _ _ _ _ _ _ _) as [log [lifetimes|e]]; reflexivity.
  - cbv zeta. split; [| reflexivity].
    eexists. split; [reflexivity |]. reflexivity.
Qed.

(** Were [len(items)] to return, the dict would hold the median under
    the key named for the mean, and no mean. *)
Lemma lifetime_dict_drops_mean option state count lifetimes :
  lifetime_dict option state count lifetimes
  = <[option +:+ "_" +:+ state +:+ "_mean_lifetime"
      := MFloat (np_median lifetimes)]>
      (<[option +:+ "_" +:+ state := MInt count]> ∅).
Proof. unfold lifetime_dict. apply insert_insert_eq. Qed.

(** ** One pass of a pagination loop *)

Lemma get_all_body_not_200 request out temp :
  status_code temp <> 200 ->
  get_all_body request out temp = Raise (IOError (status_msg temp request)).
Proof.
  intros H. unfold get_all_body.
  destruct (Z.eqb_spec (status_code temp) 200); [contradiction | reflexivity].
Qed.

Lemma get_generator_body_not_200 request temp :
  status_code temp <> 200 ->
  get_generator_body request temp = Raise (IOError (status_msg temp request)).
Proof.
  intros H. unfold get_generator_body.
  destruct (Z.eqb_spec (status_code temp) 200); [contradiction | reflexivity].
Qed.

Lemma get_all_body_200 request out temp j :
  status_code temp = 200 -> json_body temp = Some j ->
  get_all_body request out temp
  = (letr some := py_any j in
     if negb some then Ok (Break out)
     else letr out' := merge_page request out j in Ok (Next (Some out'))).
Proof.
  intros Hs Hj. unfold get_all_body, resp_json. now rewrite Hs, Hj.
Qed.

Lemma get_generator_body_200 request temp j :
  status_code temp = 200 -> json_body temp = Some j ->
  get_generator_body request temp
  = (letr some := py_any j in
     if negb some then Ok (Break [])
     else match j with
          | JList l => Ok (Next l)
          | _ => Raise (TypeError (get_generator_type_msg j request))
          end).
Proof.
  intros Hs Hj. unfold get_generator_body, resp_json. now rewrite Hs, Hj.
Qed.

(** The page counter does not reach the requests, so it does not affect
    what the loops do. *)
Lemma get_all_loop_params request headers kwargs pending :
  forall params params' out,
    get_all_loop request headers kwargs params out pending
    = get_all_loop request headers kwargs params' out pending.
Proof.
  induction pending as [|temp rest IH]; intros params params' out; simpl.
  - reflexivity.
  - destruct (get_all_body request out temp) as [[out'|out']|e]; try reflexivity.
    now rewrite (IH (params_next params) (params_next params') out').
Qed.

Lemma get_generator_loop_params request headers kwargs pending :
  forall params params',
    get_generator_loop request headers kwargs params pending
    = get_generator_loop request headers kwargs params' pending.
Proof.
  induction pending as [|temp rest IH]; intros params params'; simpl.
  - reflexivity.
  - destruct (get_generator_body request temp) as [[l|l]|e]; try reflexivity.
    now rewrite (IH (params_next params) (params_next params')).
Qed.

Lemma get_all_body_list_page request out r p :
  list_page r p ->
  get_all_body request out r
  = (letr out' := merge_page request out (JList p) in Ok (Next (Some out'))).
Proof.
  intros (Hs & Hj & Ht). rewrite (get_all_body_200 _ _ _ _ Hs Hj).
  simpl. now rewrite Ht.
Qed.

Lemma get_generator_body_list_page request r p :
  list_page r p -> get_generator_body request r = Ok (Next p).
Proof.
  intros (Hs & Hj & Ht). rewrite (get_generator_body_200 _ _ _ Hs Hj).
  simpl. now rewrite Ht.
Qed.

(** ** A run of list pages *)

Lemma get_all_loop_list_pages request headers kwargs params rs pages :
  Forall2 list_page rs pages ->
  forall acc tail,
    get_all_loop request headers kwargs params (Some (JList acc)) (rs ++ tail)
    = (let '(log, r, rest) :=
         get_all_loop request headers kwargs params
           (Some (JList (acc ++ concat pages))) tail in
       (repeat (page_request request headers kwargs) (length rs) ++ log, r, rest)).
Proof.
  induction 1 as [|r p rs pages Hp _ IH]; intros acc tail.
  - simpl. rewrite app_nil_r.
    now destruct (get_all_loop _ _ _ _ _ tail) as [[log res] rest].
  - cbn [app get_all_loop]. rewrite (get_all_body_list_page _ _ _ _ Hp).
    cbn [merge_page py_iadd_list rbind].
    rewrite (get_all_loop_params _ _ _ _ (params_next params) params).
    rewrite IH. cbn [concat]. rewrite <- app_assoc.
    now destruct (get_all_loop _ _ _ _ _ tail) as [[log res] rest].
Qed.

Lemma get_all_loop_first_pages request headers kwargs params r p rs pages :
  list_page r p -> Forall2 list_page rs pages ->
  forall tail,
    get_all_loop request headers kwargs params None ((r :: rs) ++ tail)
    = (let '(log, res, rest) :=
         get_all_loop request headers kwargs params
           (Some (JList (concat (p :: pages)))) tail in
       (repeat (page_request request headers kwargs) (length (r :: rs)) ++ log,
        res, rest)).
Proof.
  intros Hp Hps tail.
  cbn [app get_all_loop]. rewrite (get_all_body_list_page _ _ _ _ Hp).
  cbn [merge_page rbind].
  rewrite (get_all_loop_params _ _ _ _ (params_next params) params).
  rewrite (get_all_loop_list_pages _ _ _ _ _ _ Hps). cbn [concat].
  now destruct (get_all_loop _ _ _ _ _ tail) as [[log res] rest].
Qed.

Lemma get_generator_loop_list_pages request headers kwargs params rs pages :
  Forall2 list_page rs pages ->
  forall tail,
    let g := get_generator_loop request headers kwargs params (rs ++ tail) in
    let k := get_generator_loop request headers kwargs params tail in
    yielded g = concat pages ++ yielded k
    /\ ending g = ending k
    /\ requested g
       = repeat (page_request request headers kwargs) (length rs) ++ requested k.
Proof.
  induction 1 as [|r p rs pages Hp _ IH]; intros tail; cbv zeta.
  - repeat split.
  - cbn [app get_generator_loop].
    rewrite (get_generator_body_list_page _ _ _ Hp).
    rewrite (get_generator_loop_params _ _ _ _ (params_next params) params).
    destruct (IH tail) as (Hy & He & Hr).
    cbn [yielded ending requested concat length repeat].
    rewrite yielded_yield_each, ending_yield_each, requested_yield_each.
    rewrite Hy, He, Hr. rewrite <- app_assoc. repeat split.
Qed.

(** ** Merging the pages of a listing *)

Lemma get_all_loop_empty_page request headers kwargs params out last rest :
  empty_page last ->
  get_all_loop request headers kwargs params out (last :: rest)
  = ([page_request request headers kwargs], Ok out, rest).
Proof.
  intros [Hs Hj]. cbn [get_all_loop].
  now rewrite (get_all_body_200 _ _ _ _ Hs Hj).
Qed.

Lemma get_generator_loop_empty_page request headers kwargs params last rest :
  empty_page last ->
  get_generator_loop request headers kwargs params (last :: rest)
  = GGet (page_request request headers kwargs) GReturn.
Proof.
  intros [Hs Hj]. cbn [get_generator_loop].
  now rewrite (get_generator_body_200 _ _ _ Hs Hj).
Qed.

(** What both loops make of a run of list pages closed by an empty page. *)
Lemma list_pages_run self request kwargs rs pages last rest log :
  Forall2 list_page rs pages -> empty_page last ->
  let served := rs ++ last :: rest in
  let g := get_generator self request kwargs served in
  yielded g = concat pages
  /\ ending g = Ok tt
  /\ length (requested g) = S (length pages)
  /\ (pages <> [] ->
      get_all self request kwargs (mkWorld served log)
      = (Ok (Some (JList (concat pages))),
         mkWorld rest
           (log ++ repeat (page_request request (auth_headers self kwargs) kwargs)
                     (S (length pages))))).
Proof.
  intros Hps Hlast. cbv zeta.
  pose proof (Forall2_length _ _ _ Hps) as Hlen.
  unfold get_generator.
  destruct (get_generator_loop_list_pages request (auth_headers self kwargs)
              kwargs (params_init kwargs) rs pages Hps (last :: rest))
    as (Hy & He & Hr).
  rewrite (get_generator_loop_empty_page _ _ _ _ _ _ Hlast) in Hy, He, Hr.
  rewrite Hy, He, Hr. cbn [yielded ending requested].
  rewrite app_nil_r, length_app, repeat_length. cbn [length].
  repeat split; [lia |].
  intros Hne. destruct Hps as [|r p rs pages Hp Hps]; [contradiction |].
  unfold get_all. cbn [pending sent].
  rewrite (get_all_loop_first_pages _ _ _ _ _ _ _ _ Hp Hps).
  rewrite (get_all_loop_empty_page _ _ _ _ _ _ _ Hlast).
  cbn [length] in *. rewrite <- Hlen.
  replace (repeat _ (S (length rs)) ++ [_])
    with (repeat (page_request request (auth_headers self kwargs) kwargs)
            (S (S (length rs)))); [reflexivity |].
  change [page_request request (auth_headers self kwargs) kwargs]
    with (repeat (page_request request (auth_headers self kwargs) kwargs) 1).
  rewrite <- repeat_app. f_equal. lia.
Qed.

(** C7, as amended. Served [P] list pages that each hold a truthy entry,
    [N] entries in all, and then an empty page: [get_generator] yields
    exactly those [N] entries in the order served and returns, after
    [P + 1] requests; and when [P >= 1], [get_all] returns the list of
    those [N] entries, leaving unread what was served after the empty
    page. *)
Theorem list_pages_are_merged_in_order self request kwargs rs pages last rest log :
  Forall2 list_page rs pages -> empty_page last ->
  let served := rs ++ last :: rest in
  let g := get_generator self request kwargs served in
  yielded g = concat pages
  /\ ending g = Ok tt
  /\ length (requested g) = S (length pages)
  /\ (pages <> [] ->
      get_all self request kwargs (mkWorld served log)
      = (Ok (Some (JList (concat pages))),
         mkWorld rest
           (log ++ repeat (page_request request (auth_headers self kwargs) kwargs)
                     (S (length pages))))).
Proof. exact (list_pages_run self request kwargs rs pages last rest log). Qed.

(** X17. Served at least one list page holding a truthy entry and then an
    empty page, [forks], [stargazers], [subscribers] and [contributors]
    return the number of entries of all the pages together. *)
Lemma counts_after_list_pages self kwargs rs pages last rest log :
  Forall2 list_page rs pages -> empty_page last -> pages <> [] ->
  let w := mkWorld (rs ++ last :: rest) log in
  let n := Ok (Z.of_nat (length (concat pages))) in
  (forks self kwargs w).1 = n
  /\ (stargazers self kwargs w).1 = n
  /\ (subscribers self kwargs w).1 = n
  /\ (contributors self kwargs w).1 = n.
Proof.
  intros Hps Hlast Hne. cbv zeta.
  unfold forks, stargazers, subscribers, contributors, bind.
  repeat split;
    match goal with
    | |- context [get_all self ?request kwargs ?w] =>
        destruct (list_pages_run self request kwargs rs pages last rest log
                    Hps Hlast) as (_ & _ & _ & Hall);
        rewrite (Hall Hne); reflexivity
    end.
Qed.


Lemma list_pages_are_merged_in_order_witness :
  let self := mk (BASE_REQ_format "NREL" "reV") (Some "abc") in
  let kwargs := mkKwargs None None ∅ in
  let page l := mkResponse 200 "OK" "" (Some (JList l)) ∅ "" in
  let rs := [page [JInt 1; JInt 2]; page [JInt 3]] in
  let pages := [[JInt 1; JInt 2]; [JInt 3]] in
  let g := get_generator self "u" kwargs (rs ++ [page []]) in
  Forall2 list_page rs pages
  /\ empty_page (page [])
  /\ pages <> []
  /\ yielded g = [JInt 1; JInt 2; JInt 3]
  /\ ending g = Ok tt
  /\ (get_all self "u" kwargs (mkWorld (rs ++ [page []]) [])).1
     = Ok (Some (JList [JInt 1; JInt 2; JInt 3])).
Proof.
  cbv zeta.
  assert (H1 : Forall2 list_page
                 [mkResponse 200 "OK" "" (Some (JList [JInt 1; JInt 2])) ∅ "";
                  mkResponse 200 "OK" "" (Some (JList [JInt 3])) ∅ ""]
                 [[JInt 1; JInt 2]; [JInt 3]]) by (repeat constructor).
  assert (H2 : empty_page (mkResponse 200 "OK" "" (Some (JList [])) ∅ ""))
    by (split; reflexivity).
  assert (H3 : [[JInt 1; JInt 2]; [JInt 3]] <> []) by discriminate.
  pose proof (list_pages_are_merged_in_order
                (mk (BASE_REQ_format "NREL" "reV") (Some "abc")) "u"
                (mkKwargs None None ∅) _ _ _ [] [] H1 H2) as H.
  cbv zeta in H. destruct H as (Hy & He & _ & Ha).
  split; [exact H1 | split; [exact H2 | split; [exact H3 |]]].
  split; [exact Hy | split; [exact He |]].
  now rewrite (Ha H3).
Defined.

(** C7 as stated fails. One page holding one entry, the number 0, then an
    empty page: [N = 1], yet [get_generator] yields nothing and [get_all]
    returns [None], because a page none of whose entries is truthy ends
    the loop. And with no page before the empty one ([N = 0]), [get_all]
    returns [None], not a list of no entries. *)
Lemma falsy_page_ends_pagination_early :
  let self := mk (BASE_REQ_format "NREL" "reV") (Some "abc") in
  let kwargs := mkKwargs None None ∅ in
  let page l := mkResponse 200 "OK" "" (Some (JList l)) ∅ "" in
  let pages := [[JInt 0]] in
  Forall (fun p => p <> []) pages
  /\ length (concat pages) = 1%nat
  /\ yielded (get_generator self "u" kwargs (map page pages ++ [page []])) = []
  /\ (get_all self "u" kwargs (mkWorld (map page pages ++ [page []]) [])).1
     = Ok None
  /\ (get_all self "u" kwargs (mkWorld [page []] [])).1 = Ok None.
Proof.
  cbv zeta. repeat split. repeat constructor. discriminate.
Qed.

(** ** Responses with a status other than 200 *)

Lemma append_assoc (a b c : string) : (a +:+ b) +:+ c = a +:+ (b +:+ c).
Proof.
  induction a as [|x a IH]; [reflexivity |].
  change (String x ((a +:+ b) +:+ c) = String x (a +:+ (b +:+ c))).
  now rewrite IH.
Qed.

Lemma append_empty_r (a : string) : a +:+ EmptyString = a.
Proof.
  induction a as [|x a IH]; [reflexivity |].
  change (String x (a +:+ EmptyString) = String x a).
  now rewrite IH.
Qed.

Lemma status_msg_carries out request :
  carries (status_msg out request) (str_of_int (status_code out))
  /\ carries (status_msg out request) (reason out)
  /\ carries (status_msg out request) request
  /\ carries (status_msg out request) (text out).
Proof.
  unfold status_msg. split; [| split; [| split]].
  - exists ("Received unexpected status code " +:+ dq). eexists.
    rewrite append_assoc. reflexivity.
  - exists ("Received unexpected status code " +:+ dq
            +:+ str_of_int (status_code out) +:+ dq +:+ " for reason " +:+ dq).
    eexists. rewrite !append_assoc. reflexivity.
  - exists ("Received unexpected status code " +:+ dq
            +:+ str_of_int (status_code out) +:+ dq +:+ " for reason " +:+ dq
            +:+ reason out +:+ dq +:+ "." +:+ nl +:+ "Request: ").
    eexists. rewrite !append_assoc. reflexivity.
  - exists ("Received unexpected status code " +:+ dq
            +:+ str_of_int (status_code out) +:+ dq +:+ " for reason " +:+ dq
            +:+ reason out +:+ dq +:+ "." +:+ nl +:+ "Request: " +:+ request
            +:+ nl +:+ "Output: ").
    exists EmptyString. rewrite !append_assoc, append_empty_r. reflexivity.
Qed.

(** C9, as amended. A response with a status other than 200 makes
    [get_request], and any pass of [get_all] or [get_generator], raise an
    [IOError] whose message carries the status code, the reason, the
    request URL and the body. [get_request] and [get_all] then return
    nothing, whatever [get_all] had merged so far. [get_generator] has by
    then yielded the entries of the pages served before, in order; it
    yields nothing more and ends with the error, not by returning. *)
Theorem bad_status_raises_io_error self request kwargs rs pages bad rest log :
  Forall2 list_page rs pages -> status_code bad <> 200 ->
  let e := IOError (status_msg bad request) in
  let rq := page_request request (auth_headers self kwargs) kwargs in
  let g := get_generator self request kwargs (rs ++ bad :: rest) in
  (get_request self request kwargs (mkWorld (bad :: rest) log)).1 = Raise e
  /\ (forall params out,
        get_all_loop request (auth_headers self kwargs) kwargs params out
          (bad :: rest) = ([rq], Raise e, rest))
  /\ (get_all self request kwargs (mkWorld (rs ++ bad :: rest) log)).1 = Raise e
  /\ yielded g = concat pages
  /\ ending g = Raise e
  /\ carries (status_msg bad request) (str_of_int (status_code bad))
  /\ carries (status_msg bad request) (reason bad)
  /\ carries (status_msg bad request) request
  /\ carries (status_msg bad request) (text bad).
Proof.
  intros Hps Hbad. cbv zeta.
  assert (Hstep : forall params out,
             get_all_loop request (auth_headers self kwargs) kwargs params out
               (bad :: rest)
             = ([page_request request (auth_headers self kwargs) kwargs],
                Raise (IOError (status_msg bad request)), rest)).
  { intros params out. cbn [get_all_loop].
    now rewrite (get_all_body_not_200 _ _ _ Hbad). }
  split; [| split; [exact Hstep | split; [| split; [| split]]]].
  - unfold get_request, bind, requests_get. cbn [pending sent].
    destruct (Z.eqb_spec (status_code bad) 200); [contradiction | reflexivity].
  - unfold get_all. cbn [pending sent].
    destruct Hps as [|r p rs pages Hp Hps].
    + cbn [app]. now rewrite Hstep.
    + rewrite (get_all_loop_first_pages _ _ _ _ _ _ _ _ Hp Hps).
      now rewrite Hstep.
  - unfold get_generator.
    destruct (get_generator_loop_list_pages request (auth_headers self kwargs)
                kwargs (params_init kwargs) rs pages Hps (bad :: rest))
      as (Hy & _ & _).
    rewrite Hy. cbn [get_generator_loop].
    rewrite (get_generator_body_not_200 _ _ Hbad). cbn [yielded].
    apply app_nil_r.
  - unfold get_generator.
    destruct (get_generator_loop_list_pages request (auth_headers self kwargs)
                kwargs (params_init kwargs) rs pages Hps (bad :: rest))
      as (_ & He & _).
    rewrite He. cbn [get_generator_loop].
    now rewrite (get_generator_body_not_200 _ _ Hbad).
  - apply status_msg_carries.
Qed.

Lemma bad_status_raises_io_error_witness :
  let self := mk (BASE_REQ_format "NREL" "reV") (Some "abc") in
  let kwargs := mkKwargs None None ∅ in
  let good := mkResponse 200 "OK" "" (Some (JList [JInt 1])) ∅ "" in
  let bad := mkResponse 404 "Not Found" "{}" None ∅ "" in
  Forall2 list_page [good] [[JInt 1]]
  /\ status_code bad <> 200
  /\ (get_all self "u" kwargs (mkWorld [good; bad] [])).1
     = Raise (IOError (status_msg bad "u"))
  /\ ending (get_generator self "u" kwargs [good; bad])
     = Raise (IOError (status_msg bad "u")).
Proof.
  cbv zeta.
  assert (H1 : Forall2 list_page
                 [mkResponse 200 "OK" "" (Some (JList [JInt 1])) ∅ ""]
                 [[JInt 1]]) by (repeat constructor).
  assert (H2 : status_code (mkResponse 404 "Not Found" "{}" None ∅ "") <> 200)
    by discriminate.
  pose proof (bad_status_raises_io_error
                (mk (BASE_REQ_format "NREL" "reV") (Some "abc")) "u"
                (mkKwargs None None ∅) _ _ _ [] [] H1 H2) as H.
  cbv zeta in H. destruct H as (_ & _ & Ha & _ & Hg & _).
  repeat split; assumption.
Defined.

(** C9 as stated fails for [get_generator]: served a page with one entry
    and then a 500, it hands that entry to its caller before it raises. *)
Lemma generator_yields_before_bad_status :
  let self := mk (BASE_REQ_format "NREL" "reV") (Some "abc") in
  let kwargs := mkKwargs None None ∅ in
  let good := mkResponse 200 "OK" "" (Some (JList [JInt 1])) ∅ "" in
  let bad := mkResponse 500 "Internal Server Error" "" None ∅ "" in
  let g := get_generator self "u" kwargs [good; bad] in
  yielded g = [JInt 1]
  /\ yielded g <> []
  /\ ending g = Raise (IOError (status_msg bad "u")).
Proof. cbv zeta. repeat split. discriminate. Qed.

(** ** When pagination ends, and on which pages it raises [TypeError] *)

Lemma py_any_raises_type_error j e :
  py_any j = Raise e -> exists msg, e = TypeError msg.
Proof.
  destruct j; simpl; intros H; try discriminate; injection H as <-; eauto.
Qed.

(** One pass of either loop over a page served with status 200 and body
    [j], in any state of the loop. The loop ends there by returning
    exactly when [any(j)] is false. A page with a truthy element that is
    not a list makes [get_generator] raise its [TypeError]. In [get_all]
    the type test is reached only when [out] is no longer [None]: there a
    page with a truthy element that is neither a list nor a mapping raises
    [TypeError]. A body that cannot be iterated (null, a number, a
    boolean) makes [any] raise a [TypeError] in both. *)
Theorem pagination_end_and_type_errors request headers kwargs params out temp j rest :
  status_code temp = 200 -> json_body temp = Some j ->
  let rq := page_request request headers kwargs in
  let gen := get_generator_loop request headers kwargs params (temp :: rest) in
  let all := get_all_loop request headers kwargs params out (temp :: rest) in
  (py_any j = Ok false <-> gen = GGet rq GReturn)
  /\ (py_any j = Ok false <-> all = ([rq], Ok out, rest))
  /\ (py_any j = Ok true -> isinstance_list j = false ->
      gen = GGet rq (GRaise (TypeError (get_generator_type_msg j request))))
  /\ (py_any j = Ok true -> isinstance_list j = false ->
      isinstance_dict j = false -> out <> None ->
      all = ([rq], Raise (TypeError (get_all_type_msg j request)), rest))
  /\ (forall e, py_any j = Raise e ->
      (exists msg, e = TypeError msg)
      /\ gen = GGet rq (GRaise e) /\ all = ([rq], Raise e, rest)).
Proof.
  intros Hs Hj. cbv zeta. cbn [get_generator_loop get_all_loop].
  rewrite (get_generator_body_200 _ _ _ Hs Hj), (get_all_body_200 _ _ _ _ Hs Hj).
  destruct (py_any j) as [[|]|e] eqn:Hany; cbn [rbind negb].
  - (* a truthy element *)
    split; [| split; [| split; [| split]]].
    + split; [discriminate |].
      destruct j; try discriminate.
      destruct l as [|x l]; [discriminate |]. discriminate.
    + split; [discriminate |].
      destruct (merge_page request out j) as [out'|e]; cbn [rbind];
        [| discriminate].
      pose proof (get_all_loop_requests request headers kwargs rest
                    (params_next params) (Some out')) as [_ Hne].
      destruct (get_all_loop _ _ _ _ _ rest) as [[log r] rest'].
      cbn [fst] in Hne. intros H. injection H as H _ _. now destruct (Hne H).
    + intros _ Hl. now destruct j.
    + intros _ Hl Hd Hout. destruct out as [o|]; [| contradiction].
      now destruct j.
    + discriminate.
  - (* no truthy element *)
    split; [| split; [| split; [| split]]]; try discriminate; now split.
  - (* not iterable *)
    split; [| split; [| split; [| split]]]; try discriminate.
    + split; discriminate.
    + split; discriminate.
    + intros e' H. injection H as <-.
      split; [exact (py_any_raises_type_error _ _ Hany) | now split].
Qed.

Lemma pagination_end_and_type_errors_witness :
  let temp := mkResponse 200 "OK" "" (Some (JDict [("message", JStr "x")])) ∅ "" in
  let rq := page_request "u" ∅ (mkKwargs None None ∅) in
  status_code temp = 200
  /\ json_body temp = Some (JDict [("message", JStr "x")])
  /\ get_generator_loop "u" ∅ (mkKwargs None None ∅) ∅ [temp]
     = GGet rq (GRaise (TypeError
         (get_generator_type_msg (JDict [("message", JStr "x")]) "u"))).
Proof.
  cbv zeta. split; [reflexivity | split; [reflexivity |]].
  exact (proj1 (proj2 (proj2
           (pagination_end_and_type_errors "u" ∅ (mkKwargs None None ∅) ∅ None
              (mkResponse 200 "OK" "" (Some (JDict [("message", JStr "x")])) ∅ "")
              (JDict [("message", JStr "x")]) [] eq_refl eq_refl)))
         eq_refl eq_refl).
Defined.

(** C4. The claim: pagination stops exactly on a page without truthy
    element, and raises a type error whenever a fetched page is neither a
    list nor a mapping. The code: [get_all] stores its first page before
    any type test ([elif out is None: out = temp]), so a first page that
    is a str with characters is accepted and, when the next page ends the
    loop, returned as it is; [forks] then counts its characters. On the
    same pages [get_generator] raises the [TypeError], and so does
    [get_all] itself when the str is not the first page. *)
Theorem get_all_first_page_is_not_type_checked self request kwargs c s
    reason text lks u reason' text' lks' u' rest log :
  let j := JStr (String c s) in
  let first := mkResponse 200 reason text (Some j) lks u in
  let last := mkResponse 200 reason' text' (Some (JList [])) lks' u' in
  let rq := page_request request (auth_headers self kwargs) kwargs in
  isinstance_list j = false /\ isinstance_dict j = false
  /\ get_all self request kwargs (mkWorld (first :: last :: rest) log)
     = (Ok (Some j), mkWorld rest (log ++ [rq; rq]))
  /\ get_generator self request kwargs (first :: last :: rest)
     = GGet rq (GRaise (TypeError (get_generator_type_msg j request)))
  /\ (let page b := mkResponse 200 "OK" "" (Some b) ∅ "" in
      (forks self kwargs
         (mkWorld [page (JStr "Not Found"); page (JList [])] log)).1 = Ok 9
      /\ (get_all self request kwargs
            (mkWorld [page (JList [JInt 1]); page (JStr "Not Found")] log)).1
         = Raise (TypeError (get_all_type_msg (JStr "Not Found") request))).
Proof. cbv zeta. repeat split. Qed.

(** ** Commits by date *)

Section Commits.

Variable strptime : string -> string -> result datetime.
Variable date_iter : list date.

Ltac date_cases :=
  unfold date_eqb, date_gtb in *;
  repeat match goal with
    | |- context [Z.ltb ?a ?b] => destruct (Z.ltb_spec a b)
    | |- context [Z.eqb ?a ?b] => destruct (Z.eqb_spec a b)
    | H : context [Z.ltb ?a ?b] |- _ => destruct (Z.ltb_spec a b)
    | H : context [Z.eqb ?a ?b] |- _ => destruct (Z.eqb_spec a b)
    end;
  simpl in *; try discriminate; try reflexivity; try lia.

Lemma date_eqb_eq a b : date_eqb a b = true <-> a = b.
Proof.
  split.
  - destruct a as [y m d], b as [y' m' d']. intros H.
    date_cases. congruence.
  - intros <-. unfold date_eqb. now rewrite !Z.eqb_refl.
Qed.

Lemma date_eqb_sym a b : date_eqb a b = date_eqb b a.
Proof. date_cases. Qed.

Lemma date_gtb_irrefl a : date_gtb a a = false.
Proof. date_cases. Qed.

Lemma date_gtb_asym a b : date_gtb a b = true -> date_gtb b a = false.
Proof. intros H. date_cases. Qed.

Lemma date_trichotomy a b :
  date_eqb a b = false -> date_gtb a b = false -> date_gtb b a = true.
Proof. intros H1 H2. date_cases. Qed.

Lemma date_not_later_trans a b c :
  date_gtb b a = false -> date_gtb c b = false -> date_gtb c a = false.
Proof. intros H1 H2. date_cases. Qed.

Lemma date_earlier_neq d c x :
  date_gtb d c = true -> date_gtb x c = false -> date_eqb d x = false.
Proof. intros H1 H2. date_cases. Qed.

(** *** The inner loop over [date_iter] *)

Lemma scan_dates_spec c l :
  forall out stop,
    scan_dates c l out stop
    = (if existsb (date_eqb c) l then at_incr c out else out,
       stop && forallb (fun d => date_gtb d c) l).
Proof.
  induction l as [|d l IH]; intros out stop; cbn [scan_dates existsb forallb].
  - now rewrite andb_true_r.
  - destruct (date_eqb c d) eqn:Heq.
    + apply date_eqb_eq in Heq as <-.
      now rewrite date_gtb_irrefl, andb_false_r.
    + destruct (date_gtb c d) eqn:Hgt.
      * rewrite IH, (date_gtb_asym _ _ Hgt). now rewrite andb_false_r.
      * rewrite IH, (date_trichotomy _ _ Heq Hgt). reflexivity.
Qed.

Lemma at_incr_no_row c out :
  existsb (date_eqb c) (map fst out) = false -> at_incr c out = out.
Proof.
  induction out as [|[d n] out IH]; cbn [map existsb at_incr fst snd];
    [reflexivity |].
  intros H. apply orb_false_iff in H as [H1 H2].
  rewrite (date_eqb_sym d c), H1. f_equal. now apply IH.
Qed.

Lemma map_fst_tally ds : map fst (tally date_iter ds) = date_iter.
Proof.
  unfold tally. rewrite map_map. cbn [fst]. apply map_id.
Qed.

(** One commit dated [c] falls through the inner loop: the table gains it,
    and [stop] says whether [c] is earlier than every date. *)
Lemma scan_dates_tally c ds :
  scan_dates c date_iter (tally date_iter ds) true
  = (at_incr c (tally date_iter ds), earlier_than_all date_iter c).
Proof.
  rewrite scan_dates_spec. cbn [andb]. unfold earlier_than_all. f_equal.
  destruct (existsb (date_eqb c) date_iter) eqn:H; [reflexivity |].
  symmetry. apply at_incr_no_row. now rewrite map_fst_tally.
Qed.

Lemma count_date_snoc d ds c :
  count_date d (ds ++ [c])
  = count_date d ds + (if date_eqb d c then 1 else 0).
Proof.
  unfold count_date. rewrite List.filter_app, length_app.
  cbn [List.filter]. destruct (date_eqb d c); cbn [length]; lia.
Qed.

Lemma at_incr_tally c ds : at_incr c (tally date_iter ds) = tally date_iter (ds ++ [c]).
Proof.
  unfold at_incr, tally. rewrite map_map. apply map_ext. intros d.
  cbn [fst snd]. rewrite count_date_snoc.
  destruct (date_eqb d c); [reflexivity | now rewrite Z.add_0_r].
Qed.

(** *** The loop over the commits *)

Lemma commits_body_tally search_all com d seen :
  commit_date strptime com = Ok d ->
  commits_body strptime date_iter search_all com (tally date_iter seen)
  = (if earlier_than_all date_iter d && negb search_all
     then Ok (Break (tally date_iter (seen ++ [d])))
     else Ok (Next (tally date_iter (seen ++ [d])))).
Proof.
  intros H. unfold commits_body. rewrite H. cbn [rbind].
  rewrite scan_dates_tally, at_incr_tally. reflexivity.
Qed.

(** No early exit: the loop drives the generator to its end. *)
Lemma commits_loop_full search_all g :
  forall seen dates,
    dated strptime (yielded g) dates ->
    search_all = true \/ not_earlier date_iter dates ->
    for_gen (commits_body strptime date_iter search_all) (tally date_iter seen) g
    = (requested g, (letr _ := ending g in Ok (tally date_iter (seen ++ dates))), None).
Proof.
  induction g as [rq k IH|com k IH| |e]; intros seen dates Hd Hfull;
    cbn [for_gen yielded requested ending] in *.
  - now rewrite (IH seen dates Hd Hfull).
  - inversion Hd as [|? d ? dates' Hcom Hd']; subst.
    rewrite (commits_body_tally _ _ _ _ Hcom).
    assert (Hgo : earlier_than_all date_iter d && negb search_all = false).
    { destruct Hfull as [->|Hne]; [apply andb_false_r |].
      inversion Hne; subst. now rewrite H1. }
    rewrite Hgo, (IH (seen ++ [d]) dates' Hd').
    + now rewrite <- app_assoc.
    + destruct Hfull as [->|Hne]; [now left | right; now inversion Hne].
  - inversion Hd; subst. now rewrite app_nil_r.
  - reflexivity.
Qed.

(** Early exit: the loop is left at the first commit earlier than every
    date, with the generator suspended right after it. *)
Lemma commits_loop_early g :
  forall seen pre c post,
    dated strptime (yielded g) (pre ++ c :: post) ->
    not_earlier date_iter pre -> earlier_than_all date_iter c = true ->
    exists log taken k,
      for_gen (commits_body strptime date_iter false) (tally date_iter seen) g
      = (log, Ok (tally date_iter (seen ++ pre ++ [c])), Some k)
      /\ yielded g = taken ++ yielded k
      /\ length taken = S (length pre)
      /\ requested g = log ++ requested k.
Proof.
  induction g as [rq k IH|com k IH| |e]; intros seen pre c post Hd Hpre Hc;
    cbn [for_gen yielded requested] in *.
  - destruct (IH seen pre c post Hd Hpre Hc) as (log & taken & k' & -> & H2 & H3 & H4).
    exists (rq :: log), taken, k'. rewrite H4. repeat split; assumption.
  - destruct pre as [|p pre]; cbn [app] in Hd;
      inversion Hd as [|? d ? dates' Hcom Hd']; subst.
    + rewrite (commits_body_tally _ _ _ _ Hcom), Hc. cbn [andb negb].
      exists [], [com], k. repeat split.
    + rewrite (commits_body_tally _ _ _ _ Hcom).
      inversion Hpre as [|? ? Hp Hpre']; subst. rewrite Hp. cbn [andb].
      destruct (IH (seen ++ [p]) pre c post Hd' Hpre' Hc)
        as (log & taken & k' & -> & H2 & H3 & H4).
      exists log, (com :: taken), k'. rewrite <- app_assoc, H2.
      cbn [length app]. rewrite H3. repeat split; assumption.
  - destruct pre; inversion Hd.
  - destruct pre; inversion Hd.
Qed.

(** In a stream in reverse chronological order, nothing after a commit
    earlier than every date falls on one of the dates. *)
Lemma count_date_after d c post :
  date_gtb d c = true ->
  Forall (fun x => date_gtb x c = false) post ->
  count_date d (c :: post) = 0.
Proof.
  intros Hd Hpost. unfold count_date.
  replace (List.filter (date_eqb d) (c :: post)) with (@nil date); [reflexivity |].
  symmetry. cbn [List.filter].
  rewrite (date_earlier_neq d c c Hd (date_gtb_irrefl c)).
  induction Hpost as [|x post Hx _ IH]; cbn [List.filter]; [reflexivity |].
  now rewrite (date_earlier_neq d c x Hd Hx).
Qed.

Lemma descending_tail pre c post :
  descending (pre ++ c :: post) -> Forall (fun x => date_gtb x c = false) post.
Proof.
  unfold descending. intros H.
  apply Sorted_StronglySorted in H.
  - induction pre as [|p pre IH]; cbn [app] in H.
    + now inversion H.
    + inversion H; subst. now apply IH.
  - intros x y z Hxy Hyz. exact (date_not_later_trans _ _ _ Hxy Hyz).
Qed.

Lemma tally_early_exit pre c post :
  earlier_than_all date_iter c = true -> descending (pre ++ c :: post) ->
  tally date_iter (pre ++ [c]) = tally date_iter (pre ++ c :: post).
Proof.
  intros Hc Hdesc. unfold tally, earlier_than_all in *.
  pose proof (descending_tail _ _ _ Hdesc) as Hpost.
  rewrite forallb_forall in Hc.
  apply map_ext_in. intros d Hin. f_equal.
  pose proof (count_date_after d c post (Hc d Hin) Hpost) as H0.
  pose proof (count_date_after d c [] (Hc d Hin) ltac:(constructor)) as H1.
  unfold count_date in *. rewrite !List.filter_app, !length_app in *. lia.
Qed.

(** Either no commit is earlier than every date, or there is a first one
    that is. *)
Lemma first_earlier dates :
  not_earlier date_iter dates
  \/ exists pre c post,
       dates = pre ++ c :: post
       /\ not_earlier date_iter pre /\ earlier_than_all date_iter c = true.
Proof.
  induction dates as [|d dates IH].
  - left. constructor.
  - destruct (earlier_than_all date_iter d) eqn:Hd.
    + right. exists [], d, dates. repeat split; [constructor | assumption].
    + destruct IH as [IH|(pre & c & post & -> & Hpre & Hc)].
      * left. now constructor.
      * right. exists (d :: pre), c, post.
        repeat split; [now constructor | assumption].
Qed.

(** C8. Let the commits that [commit_iter] yields be dated [dates].
    - When [search_all] is set, or no commit is earlier than every date of
      [date_iter], [commits] scans the whole stream and returns the table
      in which each row of [date_iter] counts the commits whose date is
      exactly that date (or raises what the generator raises at its end).
    - When [search_all] is not set, [commits] leaves its loop at the first
      commit [c] that is strictly earlier than every date of [date_iter]:
      it has counted the commits up to [c], and the generator stays
      suspended after [c] with the later commits unread.
    - In either case, a stream in reverse chronological order that the
      generator ends by returning gives the table that counts, for each
      date, the commits of the whole stream whose date is that date. *)
Theorem commits_counts_by_date self search_all kwargs pending dates :
  let commit_iter :=
    get_generator self (base_req self +:+ "/commits") kwargs pending in
  dated strptime (yielded commit_iter) dates ->
  (search_all = true \/ not_earlier date_iter dates ->
   commits strptime self date_iter search_all kwargs pending
   = (requested commit_iter,
      (letr _ := ending commit_iter in Ok (tally date_iter dates)),
      None))
  /\ (forall pre c post,
        search_all = false -> dates = pre ++ c :: post ->
        not_earlier date_iter pre -> earlier_than_all date_iter c = true ->
        exists log taken k,
          commits strptime self date_iter search_all kwargs pending
          = (log, Ok (tally date_iter (pre ++ [c])), Some k)
          /\ yielded commit_iter = taken ++ yielded k
          /\ length taken = S (length pre)
          /\ requested commit_iter = log ++ requested k)
  /\ (descending dates -> ending commit_iter = Ok tt ->
      (commits strptime self date_iter search_all kwargs pending).1.2
      = Ok (tally date_iter dates)).
Proof.
  cbv zeta. intros Hd. unfold commits.
  change (map (fun d => (d, 0)) date_iter) with (tally date_iter []).
  split; [| split].
  - intros Hfull. exact (commits_loop_full search_all _ [] dates Hd Hfull).
  - intros pre c post -> -> Hpre Hc.
    destruct (commits_loop_early _ [] pre c post Hd Hpre Hc)
      as (log & taken & k & H1 & H2 & H3 & H4).
    exists log, taken, k. repeat split; assumption.
  - intros Hdesc Hend.
    destruct search_all.
    { rewrite (commits_loop_full true _ [] dates Hd (or_introl eq_refl)).
      cbn [fst snd]. now rewrite Hend. }
    destruct (first_earlier dates) as [Hne|(pre & c & post & -> & Hpre & Hc)].
    + rewrite (commits_loop_full false _ [] dates Hd (or_intror Hne)).
      cbn [fst snd]. now rewrite Hend.
    + destruct (commits_loop_early _ [] pre c post Hd Hpre Hc)
        as (log & taken & k & -> & _).
      cbn [fst snd app]. f_equal. now apply tally_early_exit.
Qed.

End Commits.

Lemma commits_counts_by_date_witness :
  let self := mk (BASE_REQ_format "NREL" "reV") (Some "abc") in
  let kwargs := mkKwargs None None ∅ in
  let com s := JDict [("commit", JDict [("author", JDict [("date", JStr s)])])] in
  let page l := mkResponse 200 "OK" "" (Some (JList l)) ∅ "" in
  let pending :=
    [page [com "2024-01-02T09:30:00Z"; com "2024-01-02T08:00:00Z"];
     page [com "2024-01-01T23:59:59Z"; com "2023-12-31T10:00:00Z"];
     page [com "2023-12-30T10:00:00Z"];
     page []] in
  let date_iter := [mkDate 2024 1 1; mkDate 2024 1 2] in
  let dates := [mkDate 2024 1 2; mkDate 2024 1 2; mkDate 2024 1 1;
                mkDate 2023 12 31; mkDate 2023 12 30] in
  Forall2 (fun c d => commit_date strptime_iso c = Ok d)
    (yielded (get_generator self (base_req self +:+ "/commits") kwargs pending))
    dates
  /\ exists (log : list Request) (taken : list json) (k : gen_trace),
       commits strptime_iso self date_iter false kwargs pending
       = (log, Ok [(mkDate 2024 1 1, 1); (mkDate 2024 1 2, 2)], Some k)
       /\ yielded k = [com "2023-12-30T10:00:00Z"]
       /\ length taken = 4%nat
       /\ length log = 2%nat.
Proof.
  cbv zeta.
  assert (Hd : Forall2 (fun c d => commit_date strptime_iso c = Ok d)
    (yielded (get_generator (mk (BASE_REQ_format "NREL" "reV") (Some "abc"))
       (base_req (mk (BASE_REQ_format "NREL" "reV") (Some "abc")) +:+ "/commits")
       (mkKwargs None None ∅)
       [mkResponse 200 "OK" "" (Some (JList
          [JDict [("commit", JDict [("author", JDict [("date", JStr "2024-01-02T09:30:00Z")])])];
           JDict [("commit", JDict [("author", JDict [("date", JStr "2024-01-02T08:00:00Z")])])]])) ∅ "";
        mkResponse 200 "OK" "" (Some (JList
          [JDict [("commit", JDict [("author", JDict [("date", JStr "2024-01-01T23:59:59Z")])])];
           JDict [("commit", JDict [("author", JDict [("date", JStr "2023-12-31T10:00:00Z")])])]])) ∅ "";
        mkResponse 200 "OK" "" (Some (JList
          [JDict [("commit", JDict [("author", JDict [("date", JStr "2023-12-30T10:00:00Z")])])]])) ∅ "";
        mkResponse 200 "OK" "" (Some (JList [])) ∅ ""]))
    [mkDate 2024 1 2; mkDate 2024 1 2; mkDate 2024 1 1;
     mkDate 2023 12 31; mkDate 2023 12 30]).
  { repeat constructor. }
  split; [exact Hd |].
  destruct (proj1 (proj2 (commits_counts_by_date strptime_iso
                     [mkDate 2024 1 1; mkDate 2024 1 2] _ false _ _ _ Hd))
              [mkDate 2024 1 2; mkDate 2024 1 2; mkDate 2024 1 1]
              (mkDate 2023 12 31) [mkDate 2023 12 30]
              eq_refl eq_refl
              ltac:(repeat constructor) eq_refl)
    as (log & taken & k & H1 & H2 & H3 & H4).
  exists log, taken, k.
  rewrite H1. split; [reflexivity |].
  revert H1. vm_compute. intros H1. injection H1 as <- <-.
  repeat split. exact H3.
Defined.

(** * Further properties of the client *)

(** ** When the pagination loops return *)

Lemma get_all_body_break request out temp o :
  get_all_body request out temp = Ok (Break o) -> closing_page temp /\ o = out.
Proof.
  unfold get_all_body, closing_page, resp_json.
  destruct (Z.eqb_spec (status_code temp) 200) as [Hs|Hs]; cbn [negb];
    [| discriminate].
  destruct (json_body temp) as [j|]; cbn [rbind]; [| discriminate].
  destruct (py_any j) as [[|]|e] eqn:Hany; cbn [rbind negb]; try discriminate.
  - destruct (merge_page request out j); discriminate.
  - intros H. injection H as <-. eauto.
Qed.

Lemma get_all_body_next request out temp o :
  get_all_body request out temp = Ok (Next o) ->
  truthy_page temp
  /\ exists j out', json_body temp = Some j
                    /\ merge_page request out j = Ok out' /\ o = Some out'.
Proof.
  unfold get_all_body, truthy_page, resp_json.
  destruct (Z.eqb_spec (status_code temp) 200) as [Hs|Hs]; cbn [negb];
    [| discriminate].
  destruct (json_body temp) as [j|]; cbn [rbind]; [| discriminate].
  destruct (py_any j) as [[|]|e] eqn:Hany; cbn [rbind negb]; try discriminate.
  destruct (merge_page request out j) as [out'|e] eqn:Hm; cbn [rbind];
    [| discriminate].
  intros H. injection H as <-. eauto 10.
Qed.

Lemma get_generator_body_break request temp l :
  get_generator_body request temp = Ok (Break l) -> closing_page temp.
Proof.
  unfold get_generator_body, closing_page, resp_json.
  destruct (Z.eqb_spec (status_code temp) 200) as [Hs|Hs]; cbn [negb];
    [| discriminate].
  destruct (json_body temp) as [j|]; cbn [rbind]; [| discriminate].
  destruct (py_any j) as [[|]|e] eqn:Hany; cbn [rbind negb]; try discriminate.
  - destruct j; discriminate.
  - eauto.
Qed.

Lemma get_generator_body_next request temp l :
  get_generator_body request temp = Ok (Next l) ->
  truthy_page temp /\ json_body temp = Some (JList l).
Proof.
  unfold get_generator_body, truthy_page, resp_json.
  destruct (Z.eqb_spec (status_code temp) 200) as [Hs|Hs]; cbn [negb];
    [| discriminate].
  destruct (json_body temp) as [j|]; cbn [rbind]; [| discriminate].
  destruct (py_any j) as [[|]|e] eqn:Hany; cbn [rbind negb]; try discriminate.
  destruct j; try discriminate. intros H. injection H as <-. eauto 10.
Qed.

Lemma get_all_loop_returns request headers kwargs pending :
  forall params out log res rest,
    get_all_loop request headers kwargs params out pending = (log, Ok res, rest) ->
    exists read last,
      pending = read ++ last :: rest
      /\ Forall truthy_page read /\ closing_page last
      /\ log = repeat (page_request request headers kwargs) (S (length read)).
Proof.
  induction pending as [|temp pending IH]; intros params out log res rest;
    cbn [get_all_loop]; [discriminate |].
  destruct (get_all_body request out temp) as [[o|o]|e] eqn:Hb; [| | discriminate].
  - destruct (get_all_loop _ _ _ _ o pending) as [[log' r'] rest'] eqn:Hl.
    intros H. injection H as <- -> <-.
    destruct (IH _ _ _ _ _ Hl) as (read & last & -> & Hread & Hlast & ->).
    apply get_all_body_next in Hb as [Ht _].
    exists (temp :: read), last.
    split; [reflexivity | split; [now constructor | split; [exact Hlast |]]].
    reflexivity.
  - intros H. injection H as <- _ <-.
    apply get_all_body_break in Hb as [Hc _].
    exists [], temp.
    split; [reflexivity | split; [constructor | split; [exact Hc |]]].
    reflexivity.
Qed.

Lemma get_generator_loop_returns request headers kwargs pending :
  forall params,
    ending (get_generator_loop request headers kwargs params pending) = Ok tt ->
    exists read last rest,
      pending = read ++ last :: rest
      /\ Forall truthy_page read /\ closing_page last
      /\ requested (get_generator_loop request headers kwargs params pending)
         = repeat (page_request request headers kwargs) (S (length read)).
Proof.
  induction pending as [|temp pending IH]; intros params;
    cbn [get_generator_loop ending requested]; [discriminate |].
  destruct (get_generator_body request temp) as [[l|l]|e] eqn:Hb;
    cbn [ending requested]; [| | discriminate].
  - rewrite ending_yield_each, requested_yield_each. intros H.
    destruct (IH _ H) as (read & last & rest & -> & Hread & Hlast & ->).
    apply get_generator_body_next in Hb as [Ht _].
    exists (temp :: read), last, rest.
    split; [reflexivity | split; [now constructor | split; [exact Hlast |]]].
    reflexivity.
  - intros _. apply get_generator_body_break in Hb.
    exists [], temp, pending.
    split; [reflexivity | split; [constructor | split; [exact Hb |]]].
    reflexivity.
Qed.

(** X1. [get_all] returns, and [get_generator] ends by returning, only on
    reading a page served with status 200 that has no truthy element: the
    responses read are pages with a truthy element followed by that one
    page, one identical request was sent for each, and what [get_all]
    leaves pending is what was served after it. A short page, or a page
    seen before, does not end either loop. *)
Theorem pagination_returns_on_closing_page_only self request kwargs w :
  let rq := page_request request (auth_headers self kwargs) kwargs in
  (forall out w',
     get_all self request kwargs w = (Ok out, w') ->
     exists read last,
       pending w = read ++ last :: pending w'
       /\ Forall truthy_page read /\ closing_page last
       /\ sent w' = sent w ++ repeat rq (S (length read)))
  /\ (ending (get_generator self request kwargs (pending w)) = Ok tt ->
      exists read last rest,
        pending w = read ++ last :: rest
        /\ Forall truthy_page read /\ closing_page last
        /\ requested (get_generator self request kwargs (pending w))
           = repeat rq (S (length read))).
Proof.
  cbv zeta. split.
  - intros out w'. unfold get_all.
    destruct (get_all_loop _ _ _ _ _ (pending w)) as [[log r] rest] eqn:Hl.
    intros H. injection H as -> <-.
    destruct (get_all_loop_returns _ _ _ _ _ _ _ _ _ Hl)
      as (read & last & Hp & Hread & Hlast & ->).
    exists read, last. cbn [pending sent].
    split; [exact Hp | split; [exact Hread | split; [exact Hlast |]]].
    reflexivity.
  - unfold get_generator. apply get_generator_loop_returns.
Qed.

Lemma pagination_returns_on_closing_page_only_witness :
  let self := mk (BASE_REQ_format "NREL" "reV") (Some "abc") in
  let kwargs := mkKwargs None None ∅ in
  let page j := mkResponse 200 "OK" "" (Some j) ∅ "" in
  let w := mkWorld [page (JList [JInt 1]); page (JDict []); page (JList [JInt 2])] [] in
  ending (get_generator self "u" kwargs (pending w)) = Ok tt
  /\ exists read last rest,
       pending w = read ++ last :: rest
       /\ Forall truthy_page read /\ closing_page last
       /\ requested (get_generator self "u" kwargs (pending w))
          = repeat (page_request "u" (auth_headers self kwargs) kwargs)
              (S (length read)).
Proof.
  cbv zeta. split; [reflexivity |].
  exact (proj2 (pagination_returns_on_closing_page_only
                  (mk (BASE_REQ_format "NREL" "reV") (Some "abc")) "u"
                  (mkKwargs None None ∅)
                  (mkWorld [mkResponse 200 "OK" "" (Some (JList [JInt 1])) ∅ "";
                            mkResponse 200 "OK" "" (Some (JDict [])) ∅ "";
                            mkResponse 200 "OK" "" (Some (JList [JInt 2])) ∅ ""]
                           []))
               eq_refl).
Defined.

(** ** [get_all] against [get_generator] *)

Lemma merge_page_type request o j out' :
  merge_page request (Some o) j = Ok out' -> type_name out' = type_name o.
Proof.
  cbn [merge_page]. destruct j; try discriminate.
  - destruct o; try discriminate. intros H. now injection H as <-.
  - destruct o; try discriminate. intros H. now injection H as <-.
Qed.

(** Once a page is merged, the type of [out] no longer changes. *)
Lemma get_all_loop_type request headers kwargs pending :
  forall params o log res rest,
    get_all_loop request headers kwargs params (Some o) pending
    = (log, Ok res, rest) ->
    exists o', res = Some o' /\ type_name o' = type_name o.
Proof.
  induction pending as [|temp pending IH]; intros params o log res rest;
    cbn [get_all_loop]; [discriminate |].
  destruct (get_all_body request (Some o) temp) as [[o1|o1]|e] eqn:Hb;
    [| | discriminate].
  - apply get_all_body_next in Hb as (_ & j & out' & _ & Hm & ->).
    destruct (get_all_loop _ _ _ _ (Some out') pending) as [[log' r'] rest'] eqn:Hl.
    intros H. injection H as _ -> _.
    destruct (IH _ _ _ _ _ Hl) as (o' & -> & Ht).
    exists o'. split; [reflexivity |].
    now rewrite Ht, (merge_page_type _ _ _ _ Hm).
  - apply get_all_body_break in Hb as [_ ->].
    intros H. injection H as _ <- _. eauto.
Qed.

Lemma get_all_loop_list_agrees request headers kwargs pending :
  forall params params' acc log res rest,
    get_all_loop request headers kwargs params (Some (JList acc)) pending
    = (log, Ok res, rest) ->
    let g := get_generator_loop request headers kwargs params' pending in
    res = Some (JList (acc ++ yielded g))
    /\ ending g = Ok tt /\ requested g = log.
Proof.
  induction pending as [|temp pending IH]; intros params params' acc log res rest;
    cbn [get_all_loop get_generator_loop]; [discriminate |].
  destruct (get_all_body request (Some (JList acc)) temp) as [[o1|o1]|e] eqn:Hb;
    [| | discriminate].
  - apply get_all_body_next in Hb as ((Hs & j' & Hj' & Hany) & j & out' & Hj & Hm & ->).
    rewrite Hj in Hj'. injection Hj' as <-.
    rewrite (get_generator_body_200 _ _ _ Hs Hj), Hany. cbn [rbind negb].
    destruct j; try discriminate. cbn [merge_page py_iadd_list] in Hm.
    injection Hm as <-.
    destruct (get_all_loop _ _ _ _ _ pending) as [[log' r'] rest'] eqn:Hl.
    intros H. injection H as <- -> <-.
    destruct (IH _ (params_next params') _ _ _ _ Hl) as (-> & He & Hr).
    cbv zeta. cbn [yielded ending requested].
    rewrite yielded_yield_each, ending_yield_each, requested_yield_each.
    rewrite <- app_assoc, Hr. repeat split. exact He.
  - pose proof Hb as Hb'.
    apply get_all_body_break in Hb as [(Hs & j & Hj & Hany) ->].
    rewrite (get_generator_body_200 _ _ _ Hs Hj), Hany. cbn [rbind negb].
    intros H. injection H as <- <- _. cbv zeta. cbn [yielded ending requested].
    now rewrite app_nil_r.
Qed.

Lemma get_generator_loop_list_agrees request headers kwargs pending :
  forall params params' acc,
    ending (get_generator_loop request headers kwargs params' pending) = Ok tt ->
    (get_all_loop request headers kwargs params (Some (JList acc)) pending).1.2
    = Ok (Some (JList
        (acc ++ yielded (get_generator_loop request headers kwargs params' pending)))).
Proof.
  induction pending as [|temp pending IH]; intros params params' acc;
    cbn [get_all_loop get_generator_loop ending yielded]; [discriminate |].
  destruct (get_generator_body request temp) as [[l|l]|e] eqn:Hb;
    cbn [ending yielded]; [| | discriminate].
  - apply get_generator_body_next in Hb as ((Hs & j & Hj' & Hany) & Hj).
    rewrite Hj in Hj'. injection Hj' as <-.
    rewrite (get_all_body_200 _ _ _ _ Hs Hj), Hany.
    rewrite ending_yield_each, yielded_yield_each. intros He.
    cbn [rbind negb merge_page py_iadd_list].
    specialize (IH (params_next params) (params_next params') (acc ++ l) He).
    destruct (get_all_loop _ _ _ _ _ pending) as [[log' r'] rest'].
    cbn [fst snd] in *. now rewrite IH, <- app_assoc.
  - apply get_generator_body_break in Hb as (Hs & j & Hj & Hany).
    rewrite (get_all_body_200 _ _ _ _ Hs Hj), Hany. cbn [rbind negb].
    intros _. cbn [fst snd]. now rewrite app_nil_r.
Qed.

(** X2. The two pagination methods agree. On the same responses:
    whenever [get_all] returns a list, [get_generator] yields exactly the
    entries of that list, in order, after the same requests, and returns;
    whenever [get_all] returns [None], [get_generator] yields nothing and
    returns; and whenever [get_generator] ends by returning, [get_all]
    returns the list of the entries yielded, or [None] when there are
    none. *)
Theorem get_all_agrees_with_get_generator self request kwargs w :
  let g := get_generator self request kwargs (pending w) in
  (forall l,
     (get_all self request kwargs w).1 = Ok (Some (JList l)) ->
     yielded g = l /\ ending g = Ok tt
     /\ requested g = issued (get_all self request kwargs) w)
  /\ ((get_all self request kwargs w).1 = Ok None ->
      yielded g = [] /\ ending g = Ok tt)
  /\ (ending g = Ok tt ->
      (get_all self request kwargs w).1
      = Ok (match yielded g with
            | [] => None
            | _ :: _ => Some (JList (yielded g))
            end)).
Proof.
  cbv zeta. rewrite issued_get_all. unfold get_all, get_generator.
  generalize (auth_headers self kwargs) as headers.
  generalize (params_init kwargs) as params. intros params headers.
  destruct (pending w) as [|temp rest]; cbn [get_all_loop get_generator_loop].
  { cbn. repeat split; discriminate. }
  destruct (get_all_body request None temp) as [[o|o]|e] eqn:Hb.
  - (* the first page is merged *)
    apply get_all_body_next in Hb as ((Hs & j' & Hj' & Hany) & j & out' & Hj & Hm & ->).
    rewrite Hj in Hj'. injection Hj' as <-.
    cbn [merge_page] in Hm. injection Hm as <-.
    rewrite (get_generator_body_200 _ _ _ Hs Hj), Hany. cbn [rbind negb].
    destruct (get_all_loop _ _ _ _ (Some j) rest) as [[log r] rest'] eqn:Hl.
    cbn [fst snd]. split; [| split].
    + intros l ->.
      destruct (get_all_loop_type _ _ _ _ _ _ _ _ _ Hl) as (o' & Ho' & Ht).
      injection Ho' as <-. destruct j; try discriminate.
      destruct (get_all_loop_list_agrees _ _ _ _ _ (params_next params) _ _ _ _ Hl)
        as (Hres & He & Hr).
      injection Hres as ->.
      cbn [yielded ending requested].
      rewrite yielded_yield_each, ending_yield_each, requested_yield_each, Hr.
      repeat split. exact He.
    + intros ->.
      destruct (get_all_loop_type _ _ _ _ _ _ _ _ _ Hl) as (o' & Ho' & _).
      discriminate.
    + cbn [ending yielded]. destruct j; try discriminate.
      rewrite ending_yield_each, yielded_yield_each. intros He.
      pose proof (get_generator_loop_list_agrees request headers kwargs rest
                    (params_next params) (params_next params) l He) as H.
      rewrite Hl in H. cbn [fst snd] in H. rewrite H.
      destruct l as [|x l]; [discriminate | reflexivity].
  - (* the first page ends the loop *)
    apply get_all_body_break in Hb as [(Hs & j & Hj & Hany) ->].
    rewrite (get_generator_body_200 _ _ _ Hs Hj), Hany. cbn.
    repeat split; discriminate.
  - (* the first page raises *)
    cbn [fst snd]. split; [discriminate | split; [discriminate |]].
    unfold get_all_body in Hb. unfold get_generator_body.
    destruct (negb (status_code temp =? 200)); [discriminate |].
    destruct (resp_json temp) as [j|e']; cbn [rbind] in *; [| discriminate].
    destruct (py_any j) as [[|]|e'] eqn:Hany; cbn [rbind negb] in *;
      try discriminate.
Qed.

Lemma get_all_agrees_with_get_generator_witness :
  let self := mk (BASE_REQ_format "NREL" "reV") (Some "abc") in
  let kwargs := mkKwargs None None ∅ in
  let page j := mkResponse 200 "OK" "" (Some j) ∅ "" in
  let w := mkWorld [page (JList [JInt 1; JInt 0]); page (JList [JInt 2]);
                    page (JStr EmptyString)] [] in
  (get_all self "u" kwargs w).1 = Ok (Some (JList [JInt 1; JInt 0; JInt 2]))
  /\ yielded (get_generator self "u" kwargs (pending w))
     = [JInt 1; JInt 0; JInt 2].
Proof.
  cbv zeta. split; [reflexivity |].
  exact (proj1 (proj1 (get_all_agrees_with_get_generator
                  (mk (BASE_REQ_format "NREL" "reV") (Some "abc")) "u"
                  (mkKwargs None None ∅)
                  (mkWorld [mkResponse 200 "OK" "" (Some (JList [JInt 1; JInt 0])) ∅ "";
                            mkResponse 200 "OK" "" (Some (JList [JInt 2])) ∅ "";
                            mkResponse 200 "OK" "" (Some (JStr EmptyString)) ∅ ""]
                           []))
               [JInt 1; JInt 0; JInt 2] eq_refl)).
Defined.

(** ** Mapping pages *)

Lemma dict_get_set {V} (k k' : string) (v : V) d :
  dict_get k (dict_set k' v d)
  = if String.eqb k k' then Some v else dict_get k d.
Proof.
  induction d as [|[k0 v0] d IH]; cbn [dict_set dict_get].
  - destruct (String.eqb_spec k k'); reflexivity.
  - destruct (String.eqb_spec k' k0) as [->|Hne]; cbn [dict_get].
    + destruct (String.eqb_spec k k0); reflexivity.
    + rewrite IH. destruct (String.eqb_spec k k0) as [->|Hne'];
        [| reflexivity].
      destruct (String.eqb_spec k0 k'); [congruence | reflexivity].
Qed.

Lemma dict_get_None_not_in {V} (k : string) (d : list (string * V)) :
  k ∉ map fst d -> dict_get k d = None.
Proof.
  induction d as [|[k0 v0] d IH]; cbn [dict_get map fst]; [reflexivity |].
  intros H. apply not_elem_of_cons in H as [Hne Hin].
  destruct (String.eqb_spec k k0) as [->|_]; [contradiction |].
  now apply IH.
Qed.

(** What [d.update(e)] holds under [k]: the entry of [e], or else that of
    [d]. *)
Lemma dict_get_update (k : string) (e : list (string * json)) :
  unique_keys e ->
  forall d,
    dict_get k (dict_update d e)
    = match dict_get k e with
      | Some v => Some v
      | None => dict_get k d
      end.
Proof.
  unfold unique_keys, dict_update.
  induction e as [|[k0 v0] e IH]; cbn [fold_left map fst snd dict_get];
    intros Hnd d; [reflexivity |].
  inversion Hnd as [|? ? Hnotin Hnd']; subst.
  rewrite (IH Hnd'), dict_get_set.
  destruct (String.eqb_spec k k0) as [->|Hne]; [| reflexivity].
  now rewrite (dict_get_None_not_in k0 e Hnotin).
Qed.

Lemma get_all_body_dict_page request out r d :
  dict_page r d ->
  get_all_body request out r
  = (letr out' := merge_page request out (JDict d) in Ok (Next (Some out'))).
Proof.
  intros (Hs & Hj & Ht). rewrite (get_all_body_200 _ _ _ _ Hs Hj).
  cbn [py_any rbind]. now rewrite Ht.
Qed.

Lemma get_all_loop_dict_pages request headers kwargs params rs ds :
  Forall2 dict_page rs ds ->
  forall acc tail,
    get_all_loop request headers kwargs params (Some (JDict acc)) (rs ++ tail)
    = (let '(log, r, rest) :=
         get_all_loop request headers kwargs params
           (Some (JDict (fold_left dict_update ds acc))) tail in
       (repeat (page_request request headers kwargs) (length rs) ++ log, r, rest)).
Proof.
  induction 1 as [|r d rs ds Hd _ IH]; intros acc tail.
  - cbn [app length repeat fold_left].
    now destruct (get_all_loop _ _ _ _ _ tail) as [[log res] rest].
  - cbn [app get_all_loop]. rewrite (get_all_body_dict_page _ _ _ _ Hd).
    cbn [merge_page py_update rbind].
    rewrite (get_all_loop_params _ _ _ _ (params_next params) params).
    rewrite IH. cbn [fold_left].
    now destruct (get_all_loop _ _ _ _ _ tail) as [[log res] rest].
Qed.

Lemma lookup_merged_pages (k : string) ds :
  Forall unique_keys ds ->
  forall acc,
    dict_get k (fold_left dict_update ds acc)
    = match lookup_pages k ds with
      | Some v => Some v
      | None => dict_get k acc
      end.
Proof.
  induction 1 as [|d ds Hd _ IH]; intros acc; cbn [fold_left lookup_pages];
    [reflexivity |].
  rewrite IH. destruct (lookup_pages k ds); [reflexivity |].
  now apply dict_get_update.
Qed.

Lemma get_all_loop_closing_page request headers kwargs params out last rest :
  closing_page last ->
  get_all_loop request headers kwargs params out (last :: rest)
  = ([page_request request headers kwargs], Ok out, rest).
Proof.
  intros (Hs & j & Hj & Hany). cbn [get_all_loop].
  now rewrite (get_all_body_200 _ _ _ _ Hs Hj), Hany.
Qed.

(** What [get_all] makes of mapping pages closed by a page without truthy
    element. *)
Lemma get_all_dict_pages self request kwargs r d rs ds last rest log :
  dict_page r d -> Forall2 dict_page rs ds -> closing_page last ->
  get_all self request kwargs (mkWorld (r :: rs ++ last :: rest) log)
  = (Ok (Some (JDict (fold_left dict_update ds d))),
     mkWorld rest
       (log ++ repeat (page_request request (auth_headers self kwargs) kwargs)
                 (S (S (length rs))))).
Proof.
  intros Hd Hds Hlast. unfold get_all. cbn [pending sent get_all_loop].
  rewrite (get_all_body_dict_page _ _ _ _ Hd). cbn [merge_page rbind].
  rewrite (get_all_loop_dict_pages _ _ _ _ _ _ Hds).
  rewrite (get_all_loop_closing_page _ _ _ _ _ _ _ Hlast).
  replace (S (S (length rs))) with (1 + (length rs + 1))%nat by lia.
  rewrite !repeat_app. reflexivity.
Qed.

(** X3. Served mapping pages, each with distinct keys, and then a page
    without truthy element, [get_all] returns one mapping; under every key
    it holds the value of the last page that has the key. *)
Theorem mapping_pages_later_values_win self request kwargs rs ds last rest log :
  Forall2 dict_page rs ds -> ds <> [] -> Forall unique_keys ds ->
  closing_page last ->
  exists merged,
    (get_all self request kwargs (mkWorld (rs ++ last :: rest) log)).1
    = Ok (Some (JDict merged))
    /\ forall k, dict_get k merged = lookup_pages k ds.
Proof.
  intros Hds Hne Hu Hlast.
  destruct Hds as [|r d rs ds Hd Hds]; [contradiction |].
  inversion Hu as [|? ? Hud Hu']; subst.
  exists (fold_left dict_update ds d). split.
  - cbn [app]. now rewrite (get_all_dict_pages _ _ _ _ _ _ _ _ _ _ Hd Hds Hlast).
  - intros k. rewrite (lookup_merged_pages k ds Hu'). reflexivity.
Qed.

Lemma mapping_pages_later_values_win_witness :
  let self := mk (BASE_REQ_format "NREL" "reV") (Some "abc") in
  let page j := mkResponse 200 "OK" "" (Some j) ∅ "" in
  let d1 := [("count", JInt 3); ("uniques", JInt 2)] in
  let d2 := [("count", JInt 5)] in
  Forall2 dict_page [page (JDict d1); page (JDict d2)] [d1; d2]
  /\ closing_page (page (JDict []))
  /\ exists merged,
       (get_all self "u" (mkKwargs None None ∅)
          (mkWorld ([page (JDict d1); page (JDict d2)] ++ page (JDict []) :: []) [])).1
       = Ok (Some (JDict merged))
       /\ forall k, dict_get k merged = lookup_pages k [d1; d2].
Proof.
  cbv zeta.
  assert (H1 : Forall2 dict_page
                 [mkResponse 200 "OK" "" (Some (JDict [("count", JInt 3); ("uniques", JInt 2)])) ∅ "";
                  mkResponse 200 "OK" "" (Some (JDict [("count", JInt 5)])) ∅ ""]
                 [[("count", JInt 3); ("uniques", JInt 2)]; [("count", JInt 5)]])
    by (repeat constructor).
  assert (H2 : closing_page (mkResponse 200 "OK" "" (Some (JDict [])) ∅ ""))
    by (split; [reflexivity | eexists; split; reflexivity]).
  split; [exact H1 | split; [exact H2 |]].
  apply (mapping_pages_later_values_win
           (mk (BASE_REQ_format "NREL" "reV") (Some "abc")) "u"
           (mkKwargs None None ∅) _ _ _ [] [] H1); [discriminate | | exact H2].
  repeat constructor; cbn; set_solver.
Defined.

(** X4. [get_all] does not mix page types. A mapping page that comes
    after list pages makes it raise [AttributeError] (a list has no
    [update]); a list page that comes after mapping pages makes it raise
    [TypeError] (a dict has no [+=]). Nothing merged so far is returned,
    and the pages served after are not read. *)
Theorem mixed_page_types_raise self request kwargs r p rs pages rd d rds ds rest log :
  list_page r p -> Forall2 list_page rs pages ->
  dict_page rd d -> Forall2 dict_page rds ds ->
  let rq := page_request request (auth_headers self kwargs) kwargs in
  get_all self request kwargs (mkWorld ((r :: rs) ++ rd :: rest) log)
  = (Raise (AttributeError "'list' object has no attribute 'update'"),
     mkWorld rest (log ++ repeat rq (S (S (length rs)))))
  /\ get_all self request kwargs (mkWorld ((rd :: rds) ++ r :: rest) log)
     = (Raise (TypeError "unsupported operand type(s) for +=: 'dict' and 'list'"),
        mkWorld rest (log ++ repeat rq (S (S (length rds))))).
Proof.
  intros Hp Hps Hd Hds. cbv zeta. unfold get_all. cbn [pending sent]. split.
  - rewrite (get_all_loop_first_pages _ _ _ _ _ _ _ _ Hp Hps).
    cbn [get_all_loop]. rewrite (get_all_body_dict_page _ _ _ _ Hd).
    cbn [merge_page py_update rbind length].
    replace (S (S (length rs))) with (S (length rs) + 1)%nat by lia.
    now rewrite repeat_app.
  - cbn [app get_all_loop]. rewrite (get_all_body_dict_page _ _ _ _ Hd).
    cbn [merge_page rbind].
    rewrite (get_all_loop_dict_pages _ _ _ _ _ _ Hds).
    cbn [get_all_loop]. rewrite (get_all_body_list_page _ _ _ _ Hp).
    cbn [merge_page py_iadd_list rbind].
    replace (S (S (length rds))) with (1 + (length rds + 1))%nat by lia.
    now rewrite !repeat_app.
Qed.

Lemma mixed_page_types_raise_witness :
  let self := mk (BASE_REQ_format "NREL" "reV") (Some "abc") in
  let kwargs := mkKwargs None None ∅ in
  let r := mkResponse 200 "OK" "" (Some (JList [JInt 1])) ∅ "" in
  let rd := mkResponse 200 "OK" "" (Some (JDict [("message", JStr "x")])) ∅ "" in
  list_page r [JInt 1] /\ dict_page rd [("message", JStr "x")]
  /\ (get_all self "u" kwargs (mkWorld [r; rd] [])).1
     = Raise (AttributeError "'list' object has no attribute 'update'").
Proof.
  cbv zeta.
  assert (H1 : list_page (mkResponse 200 "OK" "" (Some (JList [JInt 1])) ∅ "")
                 [JInt 1]) by (repeat split).
  assert (H2 : dict_page
                 (mkResponse 200 "OK" "" (Some (JDict [("message", JStr "x")])) ∅ "")
                 [("message", JStr "x")]) by (repeat split).
  split; [exact H1 | split; [exact H2 |]].
  pose proof (proj1 (mixed_page_types_raise
                (mk (BASE_REQ_format "NREL" "reV") (Some "abc")) "u"
                (mkKwargs None None ∅) _ _ [] [] _ _ [] [] [] []
                H1 ltac:(constructor) H2 ltac:(constructor))) as H.
  cbn [app] in H. now rewrite H.
Defined.

(** ** [commit_count] *)

(** X5. A first response without a [last] link (GitHub sends none when
    all commits fit on one page) makes [commit_count] raise
    [KeyError('last')], not the [RuntimeError] of a link without a page
    number; a [last] link without a [url] raises [KeyError('url')]. One
    request has been made, with the caller's [params]. *)
Theorem commit_count_without_last_link self kwargs first rest log :
  status_code first = 200 ->
  let rq := mkRequest (base_req self +:+ "/commits") (auth_headers self kwargs)
              (kw_params kwargs) (kw_other kwargs) in
  (links first !! "last" = None ->
   commit_count self kwargs (mkWorld (first :: rest) log)
   = (Raise (KeyError "last"), mkWorld rest (log ++ [rq])))
  /\ (forall last, links first !! "last" = Some last -> last !! "url" = None ->
      commit_count self kwargs (mkWorld (first :: rest) log)
      = (Raise (KeyError "url"), mkWorld rest (log ++ [rq]))).
Proof.
  intros Hs. cbv zeta.
  unfold commit_count, get_request, bind, requests_get, lift, links_last_url.
  cbn [pending sent]. rewrite Hs. cbn [Z.eqb Pos.eqb negb ret].
  split.
  - intros ->. reflexivity.
  - intros last -> ->. reflexivity.
Qed.

Lemma commit_count_without_last_link_witness :
  let self := mk (BASE_REQ_format "NREL" "reV") (Some "abc") in
  let first := mkResponse 200 "OK" "" (Some (JList [JDict []])) ∅ "" in
  status_code first = 200 /\ links first !! "last" = None
  /\ (commit_count self (mkKwargs None None ∅) (mkWorld [first] [])).1
     = Raise (KeyError "last").
Proof.
  cbv zeta.
  assert (H : links (mkResponse 200 "OK" "" (Some (JList [JDict []])) ∅ "")
              !! "last" = None) by reflexivity.
  split; [reflexivity | split; [exact H |]].
  now rewrite (proj1 (commit_count_without_last_link
                        (mk (BASE_REQ_format "NREL" "reV") (Some "abc"))
                        (mkKwargs None None ∅)
                        (mkResponse 200 "OK" "" (Some (JList [JDict []])) ∅ "")
                        [] [] eq_refl) H).
Defined.

(** *** The search for the page number *)

Lemma strip_prefix_Some p : forall s r, strip_prefix p s = Some r -> s = p +:+ r.
Proof.
  induction p as [|a p IH]; intros s r; cbn [strip_prefix].
  - intros H. now injection H as <-.
  - destruct s as [|b s]; [discriminate |].
    destruct (Ascii.eqb_spec a b) as [->|]; [| discriminate].
    intros H. change (String b s = String b (p +:+ r)). f_equal. now apply IH.
Qed.

Lemma strip_prefix_app p r : strip_prefix p (p +:+ r) = Some r.
Proof.
  induction p as [|a p IH]; [reflexivity |].
  change (strip_prefix (String a p) (String a (p +:+ r)) = Some r).
  cbn [strip_prefix]. now rewrite Ascii.eqb_refl.
Qed.

Lemma span_digits_spec s :
  forall ds tl, span_digits s = (ds, tl) -> s = ds +:+ tl /\ all_digits ds = true.
Proof.
  induction s as [|c s IH]; intros ds tl; cbn [span_digits].
  - intros H. injection H as <- <-. now split.
  - destruct (is_digit c) eqn:Hc.
    + destruct (span_digits s) as [ds' tl'] eqn:Hs.
      intros H. injection H as <- <-.
      destruct (IH _ _ eq_refl) as [-> Hd]. split; [reflexivity |].
      cbn [all_digits]. now rewrite Hc, Hd.
    + intros H. injection H as <- <-. now split.
Qed.

Lemma span_digits_all ds : all_digits ds = true -> span_digits ds = (ds, EmptyString).
Proof.
  induction ds as [|c ds IH]; cbn [all_digits span_digits]; [reflexivity |].
  intros H. apply andb_true_iff in H as [-> H]. now rewrite (IH H).
Qed.

Lemma at_dollar_cases tl : at_dollar tl = true -> tl = EmptyString \/ tl = nl.
Proof.
  unfold at_dollar. intros H. apply orb_true_iff in H as [H|H].
  - left. now apply String.eqb_eq.
  - right. now apply String.eqb_eq.
Qed.

Lemma match_page_here_Some s g :
  match_page_here s = Some g ->
  exists ds tl, all_digits ds = true /\ g = "page=" +:+ ds
                /\ s = g +:+ tl /\ (tl = EmptyString \/ tl = nl).
Proof.
  unfold match_page_here.
  destruct (strip_prefix "page=" s) as [after|] eqn:Hp; [| discriminate].
  destruct (span_digits after) as [ds tl] eqn:Hd.
  destruct (at_dollar tl) eqn:Ht; [| discriminate].
  intros H. injection H as <-.
  apply strip_prefix_Some in Hp as ->.
  apply span_digits_spec in Hd as [-> Hds].
  exists ds, tl.
  split; [exact Hds | split; [reflexivity | split; [reflexivity |]]].
  now apply at_dollar_cases.
Qed.

Lemma re_search_page_unfold s :
  re_search_page s
  = match match_page_here s with
    | Some g => Some g
    | None =>
        match s with
        | String _ s' => re_search_page s'
        | EmptyString => None
        end
    end.
Proof. destruct s; reflexivity. Qed.

Lemma count_p_app a b : count_p (a +:+ b) = (count_p a + count_p b)%nat.
Proof.
  induction a as [|c a IH]; [reflexivity |].
  change (count_p (String c (a +:+ b)) = (count_p (String c a) + count_p b)%nat).
  cbn [count_p]. rewrite IH. lia.
Qed.

Lemma count_p_digits ds : all_digits ds = true -> count_p ds = O.
Proof.
  induction ds as [|c ds IH]; cbn [all_digits count_p]; [reflexivity |].
  intros H. apply andb_true_iff in H as [Hc H]. rewrite (IH H).
  destruct (Ascii.eqb_spec c "p") as [->|]; [discriminate | reflexivity].
Qed.

Lemma match_page_here_count s g :
  match_page_here s = Some g -> count_p s = 1%nat.
Proof.
  intros H. apply match_page_here_Some in H
    as (ds & tl & Hds & -> & -> & Htl).
  rewrite !count_p_app, (count_p_digits ds Hds).
  destruct Htl as [->| ->]; reflexivity.
Qed.

Lemma match_page_here_head s g :
  match_page_here s = Some g -> exists s', s = String "p" s'.
Proof.
  intros H. apply match_page_here_Some in H as (ds & tl & _ & -> & -> & _).
  eexists. reflexivity.
Qed.

(** X6. The search [re.search(r'page=[0-9]*$', last_url)] of
    [commit_count] succeeds on every URL that ends in [page=] followed by
    digits, with that last [page=<digits>] as its match (also when what
    precedes it is [per_]: the match is then the page size); and whenever
    it succeeds, the URL ends in its match, [page=] followed by digits,
    up to one final newline. *)
Theorem re_search_page_matches_url_end :
  (forall pre ds,
     all_digits ds = true ->
     re_search_page (pre +:+ "page=" +:+ ds) = Some ("page=" +:+ ds))
  /\ (forall s g,
        re_search_page s = Some g ->
        exists pre ds tl,
          all_digits ds = true /\ g = "page=" +:+ ds
          /\ s = pre +:+ g +:+ tl /\ (tl = EmptyString \/ tl = nl)).
Proof.
  split.
  - intros pre ds Hds. induction pre as [|c pre IH].
    + change (EmptyString +:+ "page=" +:+ ds) with ("page=" +:+ ds).
      rewrite re_search_page_unfold. unfold match_page_here.
      now rewrite strip_prefix_app, (span_digits_all ds Hds).
    + change (String c pre +:+ "page=" +:+ ds)
        with (String c (pre +:+ "page=" +:+ ds)).
      rewrite re_search_page_unfold.
      destruct (match_page_here (String c (pre +:+ "page=" +:+ ds))) as [g|] eqn:Hm;
        [exfalso | exact IH].
      pose proof (match_page_here_count _ _ Hm) as Hc.
      destruct (match_page_here_head _ _ Hm) as [s' Hs'].
      injection Hs' as -> _.
      cbn [count_p] in Hc. rewrite !count_p_app in Hc.
      change (count_p "page=") with 1%nat in Hc.
      rewrite Ascii.eqb_refl in Hc. lia.
  - intros s. induction s as [|c s IH]; intros g; rewrite re_search_page_unfold.
    + destruct (match_page_here EmptyString) as [g'|] eqn:Hm; [| discriminate].
      discriminate.
    + destruct (match_page_here (String c s)) as [g'|] eqn:Hm.
      * intros H. injection H as <-.
        apply match_page_here_Some in Hm as (ds & tl & Hds & Hg & Hs & Htl).
        exists EmptyString, ds, tl.
        split; [exact Hds | split; [exact Hg | split; [exact Hs | exact Htl]]].
      * intros H. destruct (IH _ H) as (pre & ds & tl & Hds & Hg & -> & Htl).
        exists (String c pre), ds, tl.
        split; [exact Hds | split; [exact Hg | split; [reflexivity | exact Htl]]].
Qed.

Lemma re_search_page_matches_url_end_witness :
  all_digits "5" = true
  /\ re_search_page ("https://api.github.com/repositories/1/commits?page=34&per_"
                     +:+ "page=" +:+ "5")
     = Some ("page=" +:+ "5").
Proof.
  split; [reflexivity |].
  exact (proj1 re_search_page_matches_url_end
           "https://api.github.com/repositories/1/commits?page=34&per_" "5"
           eq_refl).
Defined.

(** ** Issues and pull requests *)

(** A [for] loop over a generator sends only requests the generator
    would send, and has sent one when the generator starts by fetching. *)
Lemma for_gen_requests {S} (body : json -> S -> result (flow S)) (P : Request -> Prop) g :
  forall s, Forall P (requested g) -> Forall P (for_gen body s g).1.1.
Proof.
  induction g as [rq k IH|entry k IH| |e]; intros s; cbn [for_gen requested].
  - intros H. inversion H; subst.
    specialize (IH s ltac:(assumption)).
    destruct (for_gen body s k) as [[log r] susp]. cbn [fst] in *.
    now constructor.
  - intros H. destruct (body entry s) as [[s'|s']|e]; cbn [fst];
      [now apply IH | constructor | constructor].
  - constructor.
  - constructor.
Qed.

Lemma auth_headers_with_state self kwargs state :
  auth_headers self (with_state kwargs state) = auth_headers self kwargs.
Proof. unfold auth_headers, with_state. now destruct (kw_params kwargs). Qed.

Lemma kw_other_with_state kwargs state :
  kw_other (with_state kwargs state) = kw_other kwargs.
Proof. unfold with_state. now destruct (kw_params kwargs). Qed.

(** X7. The requests of [_issues_pulls] do not carry the state asked
    for: whatever [state] is, every request is the same GET of
    [<base>/<option>] with the caller's headers (plus the token) and no
    [params]; at least one is sent. [issues_open] and [issues_closed]
    thus put the same question to the server. *)
Theorem issues_pulls_requests_carry_no_state strptime now self option state kwargs pending :
  let rq := mkRequest (base_req self +:+ "/" +:+ option)
              (auth_headers self kwargs) None (kw_other kwargs) in
  Forall (eq rq) (_issues_pulls strptime now self option state kwargs pending).1
  /\ (_issues_pulls strptime now self option state kwargs pending).1 <> [].
Proof.
  cbv zeta. unfold _issues_pulls, issue_lifetimes.
  pose proof (get_generator_loop_requests (base_req self +:+ "/" +:+ option)
                (auth_headers self (with_state kwargs state))
                (with_state kwargs state) pending
                (params_init (with_state kwargs state))) as [Hall _].
  unfold page_request in Hall.
  rewrite auth_headers_with_state, kw_other_with_state in Hall.
  pose proof (for_gen_requests (lifetime_body strptime state) _ _ (now, []) Hall)
    as Hlog.
  unfold get_generator in *. rewrite auth_headers_with_state in *.
  destruct pending as [|temp rest]; cbn [get_generator_loop for_gen] in *.
  - cbn [fst] in *. split; [exact Hlog | discriminate].
  - destruct (for_gen _ _ _) as [[log r] susp] eqn:Hf. cbn [fst] in *.
    split; [exact Hlog | discriminate].
Qed.

Lemma lifetime_body_timed strptime now state item d1 acc times :
  timed strptime now state item times ->
  (String.eqb state "closed" = false -> d1 = now) ->
  lifetime_body strptime state item (d1, acc)
  = Ok (Next (snd times, acc ++ [days_between times])).
Proof.
  intros [Hc Hd] Hnow. unfold lifetime_body, days_between.
  destruct times as [d0 d1']. cbn [fst snd] in *.
  destruct (py_getitem item "created_at") as [created|e]; cbn [rbind] in *;
    [| discriminate].
  rewrite Hc. cbn [rbind].
  destruct (String.eqb state "closed").
  - destruct (py_getitem item "closed_at") as [closed|e]; cbn [rbind] in *;
      [| discriminate].
    rewrite Hd. reflexivity.
  - rewrite Hd, (Hnow eq_refl). reflexivity.
Qed.

Section FloatLifetimesProperties.

Variable float : Type.
Variable total_seconds_float : datetime -> datetime -> float.
Variable float_div_int : float -> Z -> float.
Variable strptime : string -> string -> result datetime.
Variable now : datetime.

(** The float computed for the timestamps [times] of one item. *)
Local Abbreviation lifetime_float :=
  (fun times : datetime * datetime =>
     float_div_int (total_seconds_float (snd times) (fst times)) (24 * 3600)).

Lemma lifetime_body_float_timed state item d1 acc times :
  timed strptime now state item times ->
  (String.eqb state "closed" = false -> d1 = now) ->
  lifetime_body_float float total_seconds_float float_div_int strptime
    state item (d1, acc)
  = Ok (Next (snd times, acc ++ [lifetime_float times])).
Proof.
  intros [Hc Hd] Hnow. unfold lifetime_body_float.
  destruct times as [d0 d1']. cbn [fst snd] in *.
  destruct (py_getitem item "created_at") as [created|e]; cbn [rbind] in *;
    [| discriminate].
  rewrite Hc. cbn [rbind].
  destruct (String.eqb state "closed").
  - destruct (py_getitem item "closed_at") as [closed|e]; cbn [rbind] in *;
      [| discriminate].
    rewrite Hd. reflexivity.
  - rewrite Hd, (Hnow eq_refl). reflexivity.
Qed.

Lemma lifetimes_float_loop state g :
  forall d1 acc times,
    Forall2 (timed strptime now state) (yielded g) times ->
    (String.eqb state "closed" = false -> d1 = now) ->
    exists d1',
      for_gen (lifetime_body_float float total_seconds_float float_div_int
                 strptime state) (d1, acc) g
      = (requested g,
         (letr _ := ending g in Ok (d1', acc ++ map lifetime_float times)),
         None).
Proof.
  induction g as [rq k IH|item k IH| |e]; intros d1 acc times Ht Hnow;
    cbn [for_gen yielded requested ending] in *.
  - destruct (IH d1 acc times Ht Hnow) as [d1' ->]. now exists d1'.
  - inversion Ht as [|? t ? times' Hitem Ht']; subst.
    rewrite (lifetime_body_float_timed _ _ _ _ _ Hitem Hnow).
    destruct (IH (snd t) (acc ++ [lifetime_float t]) times' Ht') as [d1' ->].
    + intros Hs. destruct Hitem as [_ Hd]. now rewrite Hs in Hd.
    + exists d1'. cbn [map]. now rewrite <- app_assoc.
  - inversion Ht; subst. exists d1. cbn [map rbind]. now rewrite app_nil_r.
  - now exists d1.
Qed.

(** X8. For the items the generator yields, the loop of [_issues_pulls]
    computes one lifetime per item, in the order served: the float that
    [total_seconds] and the division by [24 * 3600] give for the
    difference from the item's [created_at] to its [closed_at] when
    [state] is [closed], and to the one reading of the clock made before
    the loop otherwise. The loop drives the generator to its end, and
    raises what the generator raises. This holds whatever the floats and
    their rounding are. *)
Theorem issue_lifetimes_per_item self option state kwargs pending times :
  let items := get_generator self (base_req self +:+ "/" +:+ option)
                 (with_state kwargs state) pending in
  Forall2 (timed strptime now state) (yielded items) times ->
  issue_lifetimes_float float total_seconds_float float_div_int strptime now
    self option state kwargs pending
  = (requested items,
     (letr _ := ending items in Ok (map lifetime_float times))).
Proof.
  cbv zeta. intros Ht. unfold issue_lifetimes_float.
  destruct (lifetimes_float_loop state _ now [] times Ht (fun _ => eq_refl))
    as [d1' ->].
  cbn [app]. now destruct (ending _) as [[]|e].
Qed.

End FloatLifetimesProperties.

(** The loop of [Github._issues_pulls] is the loop over floats at exact
    rational arithmetic. *)
Lemma issue_lifetimes_exact strptime now self option state kwargs pending :
  issue_lifetimes strptime now self option state kwargs pending
  = issue_lifetimes_float Q total_seconds (fun x n => (x / inject_Z n)%Q)
      strptime now self option state kwargs pending.
Proof. reflexivity. Qed.

Lemma issue_lifetimes_per_item_witness :
  let self := mk (BASE_REQ_format "NREL" "reV") (Some "abc") in
  let kwargs := mkKwargs None None ∅ in
  let now := mkDatetime (mkDate 2024 1 11) 6 0 0 0 in
  let created := mkDatetime (mkDate 2024 1 1) 0 0 0 0 in
  let item := JDict [("created_at", JStr "2024-01-01T00:00:00Z");
                     ("closed_at", JNull)] in
  let served := [mkResponse 200 "OK" "" (Some (JList [item])) ∅ "";
                 mkResponse 200 "OK" "" (Some (JList [])) ∅ ""] in
  Forall2 (timed strptime_iso now "open")
    (yielded (get_generator self (base_req self +:+ "/" +:+ "issues")
                (with_state kwargs "open") served)) [(created, now)]
  /\ forall (float : Type) (total_seconds_float : datetime -> datetime -> float)
            (float_div_int : float -> Z -> float),
       (issue_lifetimes_float float total_seconds_float float_div_int
          strptime_iso now self "issues" "open" kwargs served).2
       = Ok [float_div_int (total_seconds_float now created) 86400].
Proof.
  cbv zeta.
  assert (Ht : Forall2
    (timed strptime_iso (mkDatetime (mkDate 2024 1 11) 6 0 0 0) "open")
    (yielded (get_generator (mk (BASE_REQ_format "NREL" "reV") (Some "abc"))
       (base_req (mk (BASE_REQ_format "NREL" "reV") (Some "abc")) +:+ "/" +:+ "issues")
       (with_state (mkKwargs None None ∅) "open")
       [mkResponse 200 "OK" "" (Some (JList
          [JDict [("created_at", JStr "2024-01-01T00:00:00Z"); ("closed_at", JNull)]])) ∅ "";
        mkResponse 200 "OK" "" (Some (JList [])) ∅ ""]))
    [(mkDatetime (mkDate 2024 1 1) 0 0 0 0, mkDatetime (mkDate 2024 1 11) 6 0 0 0)]).
  { constructor; [split; reflexivity | constructor]. }
  split; [exact Ht |].
  intros float total_seconds_float float_div_int.
  rewrite (issue_lifetimes_per_item float total_seconds_float float_div_int
             _ _ _ _ _ _ _ _ Ht).
  reflexivity.
Defined.

Lemma lifetimes_loop_raises strptime now state e bad g :
  (forall vars, lifetime_body strptime state bad vars = Raise e) ->
  forall good more times d1 acc,
    yielded g = good ++ bad :: more ->
    Forall2 (timed strptime now state) good times ->
    (String.eqb state "closed" = false -> d1 = now) ->
    (for_gen (lifetime_body strptime state) (d1, acc) g).1.2 = Raise e.
Proof.
  intros Hbad.
  induction g as [rq k IH|item k IH| |e']; intros good more times d1 acc Hy Ht Hnow;
    cbn [for_gen yielded] in *.
  - specialize (IH good more times d1 acc Hy Ht Hnow).
    now destruct (for_gen _ _ k) as [[log r] susp].
  - destruct good as [|x good]; cbn [app] in Hy; injection Hy as -> Hy.
    + now rewrite Hbad.
    + inversion Ht as [|? t ? times' Hx Ht']; subst.
      rewrite (lifetime_body_timed _ _ _ _ _ _ _ Hx Hnow).
      apply (IH good more times' _ _ Hy Ht').
      intros Hs. destruct Hx as [_ Hd]. now rewrite Hs in Hd.
  - destruct good; discriminate.
  - destruct good; discriminate.
Qed.

(** X9. With [state] [closed], an item whose [closed_at] is null (an item
    still open) makes [_issues_pulls] raise [TypeError] from [strptime],
    whatever was computed for the items before it; so do [issues_closed]
    and [pulls_closed]. *)
Theorem closed_lifetime_of_open_item_raises strptime now self option kwargs pending
    good bad more times d0 :
  let items := get_generator self (base_req self +:+ "/" +:+ option)
                 (with_state kwargs "closed") pending in
  yielded items = good ++ bad :: more ->
  Forall2 (timed strptime now "closed") good times ->
  (letr created := py_getitem bad "created_at" in
   py_strptime strptime created TIME_FORMAT) = Ok d0 ->
  py_getitem bad "closed_at" = Ok JNull ->
  (_issues_pulls strptime now self option "closed" kwargs pending).2
  = Raise (TypeError "strptime() argument 1 must be str, not None").
Proof.
  cbv zeta. intros Hy Ht Hc Hn. unfold _issues_pulls, issue_lifetimes.
  assert (Hbad : forall vars,
             lifetime_body strptime "closed" bad vars
             = Raise (TypeError "strptime() argument 1 must be str, not None")).
  { intros [d1 acc]. unfold lifetime_body.
    destruct (py_getitem bad "created_at") as [created|e]; cbn [rbind] in *;
      [| discriminate].
    rewrite Hc. cbn [rbind]. change (String.eqb "closed" "closed") with true.
    cbv iota. rewrite Hn. reflexivity. }
  pose proof (lifetimes_loop_raises strptime now "closed" _ bad
                (get_generator self (base_req self +:+ "/" +:+ option)
                   (with_state kwargs "closed") pending)
                Hbad good more times now [] Hy Ht (fun _ => eq_refl)) as H.
  destruct (for_gen _ _ _) as [[log r] susp]. cbn [fst snd] in *.
  now rewrite H.
Qed.

Lemma closed_lifetime_of_open_item_raises_witness :
  let self := mk (BASE_REQ_format "NREL" "reV") (Some "abc") in
  let kwargs := mkKwargs None None ∅ in
  let now := mkDatetime (mkDate 2024 1 11) 6 0 0 0 in
  let bad := JDict [("created_at", JStr "2024-01-01T00:00:00Z");
                    ("closed_at", JNull)] in
  let served := [mkResponse 200 "OK" "" (Some (JList [bad])) ∅ "";
                 mkResponse 200 "OK" "" (Some (JList [])) ∅ ""] in
  py_getitem bad "closed_at" = Ok JNull
  /\ (issues_closed strptime_iso now self kwargs served).2
     = Raise (TypeError "strptime() argument 1 must be str, not None").
Proof.
  cbv zeta. split; [reflexivity |].
  exact (closed_lifetime_of_open_item_raises strptime_iso
           (mkDatetime (mkDate 2024 1 11) 6 0 0 0)
           (mk (BASE_REQ_format "NREL" "reV") (Some "abc")) "issues"
           (mkKwargs None None ∅)
           [mkResponse 200 "OK" "" (Some (JList
              [JDict [("created_at", JStr "2024-01-01T00:00:00Z");
                      ("closed_at", JNull)]])) ∅ "";
            mkResponse 200 "OK" "" (Some (JList [])) ∅ ""]
           [] _ [] [] (mkDatetime (mkDate 2024 1 1) 0 0 0 0)
           eq_refl ltac:(constructor) eq_refl eq_refl).
Defined.

(** ** Commits by date, page by page *)

(** X10. A response with a status other than 200 on a page that
    [commits] comes to fetch makes it raise that [IOError]: no table is
    returned for the commits counted so far. This is the case whenever
    [search_all] is set or no commit of the pages before is earlier than
    every date. *)
Theorem commits_raises_on_bad_status strptime date_iter self search_all kwargs
    rs pages bad rest dates :
  Forall2 list_page rs pages -> status_code bad <> 200 ->
  dated strptime (concat pages) dates ->
  search_all = true \/ not_earlier date_iter dates ->
  let request := base_req self +:+ "/commits" in
  commits strptime self date_iter search_all kwargs (rs ++ bad :: rest)
  = (repeat (page_request request (auth_headers self kwargs) kwargs) (S (length rs)),
     Raise (IOError (status_msg bad request)), None).
Proof.
  intros Hps Hbad Hd Hfull. cbv zeta. unfold commits, get_generator.
  destruct (get_generator_loop_list_pages (base_req self +:+ "/commits")
              (auth_headers self kwargs) kwargs (params_init kwargs) rs pages Hps
              (bad :: rest)) as (Hy & He & Hr).
  cbn [get_generator_loop] in Hy, He, Hr.
  rewrite (get_generator_body_not_200 _ _ Hbad) in Hy, He, Hr.
  cbn [yielded ending requested] in Hy, He, Hr. rewrite app_nil_r in Hy.
  change (map (fun d => (d, 0)) date_iter) with (tally date_iter []).
  rewrite (commits_loop_full strptime date_iter search_all _ [] dates);
    [| now rewrite Hy | exact Hfull].
  rewrite Hr, He. cbn [rbind].
  replace (S (length rs)) with (length rs + 1)%nat by lia.
  now rewrite repeat_app.
Qed.

Lemma commits_raises_on_bad_status_witness :
  let self := mk (BASE_REQ_format "NREL" "reV") (Some "abc") in
  let com s := JDict [("commit", JDict [("author", JDict [("date", JStr s)])])] in
  let good := mkResponse 200 "OK" "" (Some (JList [com "2024-01-02T09:30:00Z"])) ∅ "" in
  let bad := mkResponse 403 "rate limit exceeded" "" None ∅ "" in
  Forall2 list_page [good] [[com "2024-01-02T09:30:00Z"]]
  /\ status_code bad <> 200
  /\ (commits strptime_iso self [mkDate 2024 1 2] true (mkKwargs None None ∅)
        [good; bad]).1.2
     = Raise (IOError (status_msg bad (base_req self +:+ "/commits"))).
Proof.
  cbv zeta.
  assert (H1 : Forall2 list_page
    [mkResponse 200 "OK" "" (Some (JList
       [JDict [("commit", JDict [("author", JDict [("date", JStr "2024-01-02T09:30:00Z")])])]])) ∅ ""]
    [[JDict [("commit", JDict [("author", JDict [("date", JStr "2024-01-02T09:30:00Z")])])]]])
    by (repeat constructor).
  assert (H2 : status_code (mkResponse 403 "rate limit exceeded" "" None ∅ "") <> 200)
    by discriminate.
  split; [exact H1 | split; [exact H2 |]].
  pose proof (commits_raises_on_bad_status strptime_iso [mkDate 2024 1 2]
                (mk (BASE_REQ_format "NREL" "reV") (Some "abc")) true
                (mkKwargs None None ∅) _ _ _ [] [mkDate 2024 1 2] H1 H2
                ltac:(repeat constructor) (or_introl eq_refl)) as H.
  cbv zeta in H. cbn [app] in H. now rewrite H.
Defined.

Lemma commits_yield_each_full strptime date_iter search_all l ds :
  dated strptime l ds ->
  search_all = true \/ not_earlier date_iter ds ->
  forall k seen,
    for_gen (commits_body strptime date_iter search_all) (tally date_iter seen)
      (yield_each l k)
    = for_gen (commits_body strptime date_iter search_all)
        (tally date_iter (seen ++ ds)) k.
Proof.
  induction 1 as [|com d l ds Hcom _ IH]; intros Hfull k seen;
    cbn [yield_each for_gen].
  - now rewrite app_nil_r.
  - rewrite (commits_body_tally _ _ _ _ _ _ Hcom).
    assert (Hgo : earlier_than_all date_iter d && negb search_all = false).
    { destruct Hfull as [->|Hne]; [apply andb_false_r |].
      inversion Hne as [|? ? Hd']; subst. now rewrite Hd'. }
    rewrite Hgo, IH.
    + now rewrite <- app_assoc.
    + destruct Hfull as [->|Hne]; [now left | right; now inversion Hne].
Qed.

Lemma commits_yield_each_early strptime date_iter a da c dc b k seen :
  dated strptime a da -> not_earlier date_iter da ->
  commit_date strptime c = Ok dc -> earlier_than_all date_iter dc = true ->
  for_gen (commits_body strptime date_iter false) (tally date_iter seen)
    (yield_each (a ++ c :: b) k)
  = ([], Ok (tally date_iter (seen ++ da ++ [dc])), Some (yield_each b k)).
Proof.
  intros Ha Hne Hc He.
  assert (Hsplit : yield_each (a ++ c :: b) k
                   = yield_each a (GYield c (yield_each b k))).
  { clear. induction a as [|x a IH]; [reflexivity | cbn; now rewrite IH]. }
  rewrite Hsplit, (commits_yield_each_full _ _ _ _ _ Ha (or_intror Hne)).
  cbn [for_gen]. rewrite (commits_body_tally _ _ _ _ _ _ Hc), He.
  cbn [andb negb]. now rewrite <- app_assoc.
Qed.

Lemma commits_pages_full strptime date_iter search_all request headers kwargs
    rs pages dpages :
  Forall2 list_page rs pages -> Forall2 (dated strptime) pages dpages ->
  search_all = true \/ not_earlier date_iter (concat dpages) ->
  forall params seen tail,
    for_gen (commits_body strptime date_iter search_all) (tally date_iter seen)
      (get_generator_loop request headers kwargs params (rs ++ tail))
    = (let '(log, r, susp) :=
         for_gen (commits_body strptime date_iter search_all)
           (tally date_iter (seen ++ concat dpages))
           (get_generator_loop request headers kwargs params tail) in
       (repeat (page_request request headers kwargs) (length rs) ++ log, r, susp)).
Proof.
  intros Hps. revert dpages.
  induction Hps as [|r p rs pages Hp _ IH]; intros dpages Hd Hfull params seen tail.
  - inversion Hd; subst. cbn [app concat length repeat].
    rewrite app_nil_r. now destruct (for_gen _ _ _) as [[log res] susp].
  - inversion Hd as [|? dp ? dpages' Hdp Hd']; subst.
    cbn [app get_generator_loop for_gen].
    rewrite (get_generator_body_list_page _ _ _ Hp).
    rewrite (get_generator_loop_params _ _ _ _ (params_next params) params).
    assert (Hf1 : search_all = true \/ not_earlier date_iter dp).
    { destruct Hfull as [->|Hne]; [now left | right].
      cbn [concat] in Hne. unfold not_earlier in *.
      now apply Forall_app in Hne as [? _]. }
    assert (Hf2 : search_all = true \/ not_earlier date_iter (concat dpages')).
    { destruct Hfull as [->|Hne]; [now left | right].
      cbn [concat] in Hne. unfold not_earlier in *.
      now apply Forall_app in Hne as [_ ?]. }
    rewrite (commits_yield_each_full _ _ _ _ _ Hdp Hf1).
    rewrite (IH dpages' Hd' Hf2). cbn [concat]. rewrite <- app_assoc.
    now destruct (for_gen _ _ _) as [[log res] susp].
Qed.

(** X11. Without [search_all], [commits] fetches no page after the one
    that holds the first commit earlier than every date: it has sent one
    request per page up to that one, it returns the counts of the commits
    up to that commit, and neither the rest of that page nor what is
    served afterwards, a failing response included, has any effect. *)
Theorem commits_early_exit_leaves_pages_unread strptime date_iter self kwargs
    rs pages dpages r a da c dc b rest :
  Forall2 list_page rs pages -> Forall2 (dated strptime) pages dpages ->
  not_earlier date_iter (concat dpages) ->
  list_page r (a ++ c :: b) ->
  dated strptime a da -> not_earlier date_iter da ->
  commit_date strptime c = Ok dc -> earlier_than_all date_iter dc = true ->
  let request := base_req self +:+ "/commits" in
  (commits strptime self date_iter false kwargs (rs ++ r :: rest)).1
  = (repeat (page_request request (auth_headers self kwargs) kwargs) (S (length rs)),
     Ok (tally date_iter (concat dpages ++ da ++ [dc]))).
Proof.
  intros Hps Hd Hne Hr Ha Hnea Hc He. cbv zeta. unfold commits, get_generator.
  change (map (fun d => (d, 0)) date_iter) with (tally date_iter []).
  rewrite (commits_pages_full _ _ _ _ _ _ _ _ _ Hps Hd (or_intror Hne)).
  cbn [get_generator_loop for_gen app].
  rewrite (get_generator_body_list_page _ _ _ Hr).
  rewrite (commits_yield_each_early _ _ _ _ _ _ _ _ _ Ha Hnea Hc He).
  cbn [fst]. replace (S (length rs)) with (length rs + 1)%nat by lia.
  now rewrite repeat_app.
Qed.

Lemma commits_early_exit_leaves_pages_unread_witness :
  let self := mk (BASE_REQ_format "NREL" "reV") (Some "abc") in
  let com s := JDict [("commit", JDict [("author", JDict [("date", JStr s)])])] in
  let r := mkResponse 200 "OK" ""
             (Some (JList [com "2024-01-02T09:30:00Z"; com "2023-12-31T10:00:00Z";
                           JNull])) ∅ "" in
  let bad := mkResponse 500 "Internal Server Error" "" None ∅ "" in
  list_page r [com "2024-01-02T09:30:00Z"; com "2023-12-31T10:00:00Z"; JNull]
  /\ earlier_than_all [mkDate 2024 1 2] (mkDate 2023 12 31) = true
  /\ (commits strptime_iso self [mkDate 2024 1 2] false (mkKwargs None None ∅)
        [r; bad]).1.2
     = Ok [(mkDate 2024 1 2, 1)].
Proof.
  cbv zeta.
  assert (H1 : list_page
    (mkResponse 200 "OK" "" (Some (JList
       [JDict [("commit", JDict [("author", JDict [("date", JStr "2024-01-02T09:30:00Z")])])];
        JDict [("commit", JDict [("author", JDict [("date", JStr "2023-12-31T10:00:00Z")])])];
        JNull])) ∅ "")
    ([JDict [("commit", JDict [("author", JDict [("date", JStr "2024-01-02T09:30:00Z")])])]]
     ++ JDict [("commit", JDict [("author", JDict [("date", JStr "2023-12-31T10:00:00Z")])])]
     :: [JNull])) by (repeat split).
  split; [exact H1 | split; [reflexivity |]].
  pose proof (commits_early_exit_leaves_pages_unread strptime_iso [mkDate 2024 1 2]
                (mk (BASE_REQ_format "NREL" "reV") (Some "abc"))
                (mkKwargs None None ∅) [] [] [] _ _ [mkDate 2024 1 2] _
                (mkDate 2023 12 31) _
                [mkResponse 500 "Internal Server Error" "" None ∅ ""]
                ltac:(constructor) ltac:(constructor) ltac:(constructor)
                H1 ltac:(repeat constructor) ltac:(repeat constructor)
                eq_refl eq_refl) as H.
  cbv zeta in H. cbn [app] in H. now rewrite H.
Defined.

(** ** Traffic *)

(** X12. When the first page served has no truthy element, [clones] and
    [views] raise [TypeError]: [get_all] returns [None], which
    [_traffic] subscripts before anything is built. *)
Theorem traffic_of_no_records_raises (frame : Type)
    (to_frame : string -> json -> result frame) self kwargs last rest log :
  closing_page last ->
  let e := TypeError "'NoneType' object is not subscriptable" in
  let w := mkWorld (last :: rest) log in
  (clones frame to_frame self kwargs w).1 = Raise e
  /\ (views frame to_frame self kwargs w).1 = Raise e.
Proof.
  intros Hlast. cbv zeta. unfold clones, views, _traffic, bind, get_all.
  cbn [pending sent].
  rewrite !(get_all_loop_closing_page _ _ _ _ _ _ _ Hlast). split; reflexivity.
Qed.

Lemma traffic_of_no_records_raises_witness :
  let self := mk (BASE_REQ_format "NREL" "reV") (Some "abc") in
  let last := mkResponse 200 "OK" "" (Some (JDict [])) ∅ "" in
  closing_page last
  /\ (clones json (fun _ records => Ok records) self (mkKwargs None None ∅)
        (mkWorld [last] [])).1
     = Raise (TypeError "'NoneType' object is not subscriptable").
Proof.
  cbv zeta.
  assert (H : closing_page (mkResponse 200 "OK" "" (Some (JDict [])) ∅ ""))
    by (split; [reflexivity | eexists; split; reflexivity]).
  split; [exact H |].
  exact (proj1 (traffic_of_no_records_raises json (fun _ records => Ok records)
                  (mk (BASE_REQ_format "NREL" "reV") (Some "abc"))
                  (mkKwargs None None ∅) _ [] [] H)).
Defined.

(** X13. Served mapping pages and then a page without truthy element,
    [_traffic] builds its table from the records that the last page
    holding the key [option] has under it: records under that key on
    earlier pages are replaced, not added to. When no page has the key,
    it raises [KeyError]. *)
Theorem traffic_reads_last_page_with_key (frame : Type)
    (to_frame : string -> json -> result frame) self option kwargs
    rs ds last rest log :
  Forall2 dict_page rs ds -> ds <> [] -> Forall unique_keys ds ->
  closing_page last ->
  (_traffic frame to_frame self option kwargs (mkWorld (rs ++ last :: rest) log)).1
  = match lookup_pages option ds with
    | Some records => to_frame option records
    | None => Raise (KeyError option)
    end.
Proof.
  intros Hds Hne Hu Hlast.
  destruct Hds as [|r d rs ds Hd Hds]; [contradiction |].
  inversion Hu as [|? ? Hud Hu']; subst.
  unfold _traffic, bind. cbn [app].
  rewrite (get_all_dict_pages _ _ _ _ _ _ _ _ _ _ Hd Hds Hlast).
  unfold lift. cbn [py_getitem_optional py_getitem fst].
  rewrite (lookup_merged_pages option ds Hu' d). cbn [lookup_pages].
  destruct (lookup_pages option ds) as [v|]; [reflexivity |].
  now destruct (dict_get option d).
Qed.

Lemma traffic_reads_last_page_with_key_witness :
  let self := mk (BASE_REQ_format "NREL" "reV") (Some "abc") in
  let page j := mkResponse 200 "OK" "" (Some j) ∅ "" in
  let d1 := [("count", JInt 3); ("clones", JList [JInt 1; JInt 2])] in
  let d2 := [("count", JInt 1); ("clones", JList [JInt 3])] in
  Forall2 dict_page [page (JDict d1); page (JDict d2)] [d1; d2]
  /\ closing_page (page (JList []))
  /\ (_traffic json (fun _ records => Ok records) self "clones"
        (mkKwargs None None ∅)
        (mkWorld ([page (JDict d1); page (JDict d2)] ++ [page (JList [])]) [])).1
     = Ok (JList [JInt 3]).
Proof.
  cbv zeta.
  assert (H1 : Forall2 dict_page
    [mkResponse 200 "OK" "" (Some (JDict [("count", JInt 3); ("clones", JList [JInt 1; JInt 2])])) ∅ "";
     mkResponse 200 "OK" "" (Some (JDict [("count", JInt 1); ("clones", JList [JInt 3])])) ∅ ""]
    [[("count", JInt 3); ("clones", JList [JInt 1; JInt 2])];
     [("count", JInt 1); ("clones", JList [JInt 3])]]) by (repeat constructor).
  assert (H2 : closing_page (mkResponse 200 "OK" "" (Some (JList [])) ∅ ""))
    by (split; [reflexivity | eexists; split; reflexivity]).
  split; [exact H1 | split; [exact H2 |]].
  rewrite (traffic_reads_last_page_with_key json (fun _ records => Ok records)
             (mk (BASE_REQ_format "NREL" "reV") (Some "abc")) "clones"
             (mkKwargs None None ∅) _ _ _ [] [] H1);
    [reflexivity | discriminate | | exact H2].
  repeat constructor; cbn; set_solver.
Defined.

(** * Properties of the command line *)

Section CliProperties.

Variable exn : Type.
Variable St : Type.
Variable path_exists : string -> bool.
Variable read_csv : string -> St -> (exn + Cli.DataFrame).
Variable osos_update : Cli.Job -> St -> (exn + unit) * St.

Local Abbreviation main := (Cli.main exn St path_exists read_csv osos_update).
Local Abbreviation run_rows := (Cli.run_rows exn St osos_update).
Local Abbreviation run_job := (Cli.run_job exn St osos_update).
Local Abbreviation job_of_row := (Cli.job_of_row exn).

(** X14. How [main] chooses what to do. With [--config], the explicit
    repository options are ignored, whatever they are; without it, the
    single repository is updated when owner, repository and output file
    are all given, and [main] fails its assertion, before any work, when
    one of them is not. The verbosity flag changes none of this. *)
Theorem main_mode_selection config git_owner git_repo pypi_name fpath_out verbose st :
  (forall path, config = Some path ->
     main config git_owner git_repo pypi_name fpath_out verbose st
     = main (Some path) None None None None false st)
  /\ (forall owner repo fpath,
        config = None -> git_owner = Some owner -> git_repo = Some repo ->
        fpath_out = Some fpath ->
        main config git_owner git_repo pypi_name fpath_out verbose st
        = run_job (Cli.mkJob (Cli.VStr owner) (Cli.VStr repo)
                     (Cli.VStr <$> pypi_name) (Cli.VStr fpath)) st)
  /\ (config = None ->
      git_owner = None \/ git_repo = None \/ fpath_out = None ->
      main config git_owner git_repo pypi_name fpath_out verbose st
      = (Some (Cli.AssertionError exn Cli.assert_msg), st)).
Proof.
  split; [| split].
  - intros path ->. unfold Cli.main.
    destruct git_owner, git_repo, fpath_out; reflexivity.
  - intros owner repo fpath -> -> -> ->. reflexivity.
  - intros -> H. unfold Cli.main.
    destruct git_owner, git_repo, fpath_out; try reflexivity.
    destruct H as [H|[H|H]]; discriminate.
Qed.

Lemma in_columns_elem cfg r : Cli.in_columns cfg r = true <-> r ∈ Cli.columns cfg.
Proof.
  unfold Cli.in_columns. rewrite existsb_exists, list_elem_of_In. split.
  - intros (x & Hin & Heq). apply String.eqb_eq in Heq. now subst.
  - intros Hin. exists r. split; [exact Hin | apply String.eqb_refl].
Qed.

Lemma missing_columns_elem cfg r :
  r ∈ Cli.missing_columns cfg <-> r ∈ Cli.required /\ r ∉ Cli.columns cfg.
Proof.
  unfold Cli.missing_columns. rewrite list_elem_of_In, List.filter_In.
  rewrite <- list_elem_of_In, <- in_columns_elem.
  destruct (Cli.in_columns cfg r); cbn [negb]; split; intros [H1 H2];
    split; try assumption; try discriminate; try congruence; try reflexivity;
    try (intros [? _]; discriminate); try (exfalso; apply H2; now split).
Qed.

Lemma any_str_missing cfg :
  Cli.any_str (Cli.missing_columns cfg)
  = match Cli.missing_columns cfg with [] => false | _ :: _ => true end.
Proof.
  assert (Hreq : Forall (fun r => str_nonempty r = true) Cli.required)
    by (repeat constructor).
  assert (Hsub : Forall (fun r => str_nonempty r = true) (Cli.missing_columns cfg)).
  { apply Forall_forall. intros r Hr. apply missing_columns_elem in Hr as [Hr _].
    revert r Hr. now apply Forall_forall. }
  destruct (Cli.missing_columns cfg) as [|x l]; [reflexivity |].
  inversion Hsub as [|? ? Hx _]; subst. unfold Cli.any_str. cbn [existsb].
  now rewrite Hx.
Qed.

(** X15. In batch mode, a configuration table that lacks one of the
    columns [name], [git_owner], [git_repo], [fpath_out] makes [main]
    raise a [KeyError] that lists the missing ones, before any repository
    is processed: the state is untouched. A table that has them all is
    processed row by row. *)
Theorem main_checks_required_columns path git_owner git_repo pypi_name fpath_out
    verbose cfg st :
  path_exists path = true -> Cli.endswith path ".csv" = true ->
  read_csv path st = inr cfg ->
  (forall r, r ∈ Cli.required -> r ∉ Cli.columns cfg ->
     r ∈ Cli.missing_columns cfg
     /\ main (Some path) git_owner git_repo pypi_name fpath_out verbose st
        = (Some (Cli.KeyError exn ("Config had missing required columns: "
                                   +:+ Cli.repr_list (Cli.missing_columns cfg))),
           st))
  /\ ((forall r, r ∈ Cli.required -> r ∈ Cli.columns cfg) ->
      main (Some path) git_owner git_repo pypi_name fpath_out verbose st
      = run_rows (Cli.rows cfg) st).
Proof.
  intros Hp He Hr.
  assert (Hmain : main (Some path) git_owner git_repo pypi_name fpath_out verbose st
                  = if Cli.any_str (Cli.missing_columns cfg)
                    then (Some (Cli.KeyError exn
                                  ("Config had missing required columns: "
                                   +:+ Cli.repr_list (Cli.missing_columns cfg))), st)
                    else run_rows (Cli.rows cfg) st).
  { unfold Cli.main. rewrite Hp, He, Hr.
    destruct git_owner, git_repo, fpath_out; reflexivity. }
  rewrite Hmain, any_str_missing. split.
  - intros r Hreq Hnot.
    assert (Hin : r ∈ Cli.missing_columns cfg) by now apply missing_columns_elem.
    split; [exact Hin |].
    destruct (Cli.missing_columns cfg); [| reflexivity].
    now apply elem_of_nil in Hin.
  - intros Hall. destruct (Cli.missing_columns cfg) as [|x l] eqn:Hm; [reflexivity |].
    assert (Hx : x ∈ Cli.missing_columns cfg) by (rewrite Hm; left).
    apply missing_columns_elem in Hx as [Hx1 Hx2]. now destruct (Hx2 (Hall x Hx1)).
Qed.

(** Rows that are processed without an exception hand the state on to
    the rows after them. *)
Lemma run_rows_app pre post st st1 :
  run_rows pre st = (None, st1) ->
  run_rows (pre ++ post) st = run_rows post st1.
Proof.
  revert st. induction pre as [|row pre IH]; intros st; cbn [Cli.run_rows app].
  - intros H. now injection H as <-.
  - destruct (job_of_row row) as [e|job]; [discriminate |].
    destruct (run_job job st) as [[e|] st']; [discriminate | apply IH].
Qed.

(** X16. In batch mode the rows are processed in order, and the first
    repository whose update raises ends the run: the rows after it are
    not processed, and the state is the one that update left. *)
Theorem main_stops_at_first_failing_row path git_owner git_repo pypi_name fpath_out
    verbose cfg st pre row post job st1 e st2 :
  path_exists path = true -> Cli.endswith path ".csv" = true ->
  read_csv path st = inr cfg ->
  (forall r, r ∈ Cli.required -> r ∈ Cli.columns cfg) ->
  Cli.rows cfg = pre ++ row :: post ->
  run_rows pre st = (None, st1) ->
  job_of_row row = inr job -> osos_update job st1 = (inl e, st2) ->
  main (Some path) git_owner git_repo pypi_name fpath_out verbose st
  = (Some (Cli.Raised exn e), st2).
Proof.
  intros Hp He Hr Hall Hrows Hpre Hjob Hfail.
  assert (Hmain : main (Some path) git_owner git_repo pypi_name fpath_out verbose st
                  = run_rows (Cli.rows cfg) st).
  { unfold Cli.main. rewrite Hp, He, Hr, any_str_missing.
    destruct (Cli.missing_columns cfg) as [|x l] eqn:Hm.
    - destruct git_owner, git_repo, fpath_out; reflexivity.
    - assert (Hx : x ∈ Cli.missing_columns cfg) by (rewrite Hm; left).
      apply missing_columns_elem in Hx as [Hx1 Hx2].
      now destruct (Hx2 (Hall x Hx1)). }
  rewrite Hmain, Hrows, (run_rows_app _ _ _ _ Hpre).
  cbn [Cli.run_rows]. rewrite Hjob. unfold Cli.run_job. now rewrite Hfail.
Qed.

End CliProperties.

Lemma main_mode_selection_witness :
  let jobs_run := list Cli.Job in
  let update (job : Cli.Job) (st : jobs_run) : (string + unit) * jobs_run :=
    (inr tt, st ++ [job]) in
  let read (path : string) (st : jobs_run) : string + Cli.DataFrame :=
    inr (Cli.mkDataFrame [] []) in
  Some "jobs.csv" = Some "jobs.csv"
  /\ Cli.main string jobs_run (fun _ => true) read update
       (Some "jobs.csv") (Some "NREL") (Some "reV") None (Some "out.csv") true []
     = Cli.main string jobs_run (fun _ => true) read update
         (Some "jobs.csv") None None None None false [].
Proof.
  cbv zeta. split; [reflexivity |].
  exact (proj1 (main_mode_selection string (list Cli.Job) (fun _ => true)
                  (fun _ _ => inr (Cli.mkDataFrame [] []))
                  (fun job st => (inr tt, st ++ [job]))
                  (Some "jobs.csv") (Some "NREL") (Some "reV") None
                  (Some "out.csv") true [])
               "jobs.csv" eq_refl).
Defined.

Lemma main_checks_required_columns_witness :
  let jobs_run := list Cli.Job in
  let update (job : Cli.Job) (st : jobs_run) : (string + unit) * jobs_run :=
    (inr tt, st ++ [job]) in
  let cfg := Cli.mkDataFrame ["name"; "git_owner"; "fpath_out"]
               [{["git_owner" := Cli.VStr "NREL"]}] in
  let read (path : string) (st : jobs_run) : string + Cli.DataFrame := inr cfg in
  Cli.endswith "jobs.csv" ".csv" = true
  /\ ("git_repo" ∈ Cli.required) /\ ("git_repo" ∉ Cli.columns cfg)
  /\ Cli.main string jobs_run (fun _ => true) read update
       (Some "jobs.csv") None None None None false []
     = (Some (Cli.KeyError string
                "Config had missing required columns: ['git_repo']"), []).
Proof.
  cbv zeta.
  assert (H1 : "git_repo" ∈ Cli.required) by (unfold Cli.required; set_solver).
  assert (H2 : "git_repo" ∉ Cli.columns
                 (Cli.mkDataFrame ["name"; "git_owner"; "fpath_out"]
                    [{["git_owner" := Cli.VStr "NREL"]}]))
    by (cbn; set_solver).
  split; [reflexivity | split; [exact H1 | split; [exact H2 |]]].
  exact (proj2 (proj1 (main_checks_required_columns string (list Cli.Job)
                  (fun _ => true)
                  (fun _ _ => inr (Cli.mkDataFrame ["name"; "git_owner"; "fpath_out"]
                                     [{["git_owner" := Cli.VStr "NREL"]}]))
                  (fun job st => (inr tt, st ++ [job]))
                  "jobs.csv" None None None None false _ [] eq_refl eq_refl eq_refl)
               "git_repo" H1 H2)).
Defined.

Lemma main_stops_at_first_failing_row_witness :
  let jobs_run := list Cli.Job in
  let update (job : Cli.Job) (st : jobs_run) : (string + unit) * jobs_run :=
    match Cli.job_owner job with
    | Cli.VStr _ => (inr tt, st ++ [job])
    | _ => (inl "owner is not a str", st ++ [job])
    end in
  let row (owner : Cli.cval) (repo : string) : gmap string Cli.cval :=
    <["name" := Cli.VStr repo]> (<["git_owner" := owner]>
      (<["git_repo" := Cli.VStr repo]> (<["fpath_out" := Cli.VStr "out.csv"]> ∅))) in
  let cfg := Cli.mkDataFrame ["name"; "git_owner"; "git_repo"; "fpath_out"]
               [row (Cli.VStr "NREL") "reV"; row Cli.VNaN "rex";
                row (Cli.VStr "NREL") "sup3r"] in
  let read (path : string) (st : jobs_run) : string + Cli.DataFrame := inr cfg in
  let job1 := Cli.mkJob (Cli.VStr "NREL") (Cli.VStr "reV") None (Cli.VStr "out.csv") in
  let job2 := Cli.mkJob Cli.VNaN (Cli.VStr "rex") None (Cli.VStr "out.csv") in
  Cli.run_rows string jobs_run update [row (Cli.VStr "NREL") "reV"] [] = (None, [job1])
  /\ update job2 [job1] = (inl "owner is not a str", [job1; job2])
  /\ Cli.main string jobs_run (fun _ => true) read update
       (Some "jobs.csv") None None None None false []
     = (Some (Cli.Raised string "owner is not a str"), [job1; job2]).
Proof.
  cbv zeta. split; [reflexivity | split; [reflexivity |]].
  pose (row := fun (owner : Cli.cval) (repo : string) =>
    (<["name" := Cli.VStr repo]> (<["git_owner" := owner]>
      (<["git_repo" := Cli.VStr repo]> (<["fpath_out" := Cli.VStr "out.csv"]> ∅))))
    : gmap string Cli.cval).
  pose (cfg := Cli.mkDataFrame ["name"; "git_owner"; "git_repo"; "fpath_out"]
                 [row (Cli.VStr "NREL") "reV"; row Cli.VNaN "rex";
                  row (Cli.VStr "NREL") "sup3r"]).
  pose (update := fun (job : Cli.Job) (st : list Cli.Job) =>
    (match Cli.job_owner job with
     | Cli.VStr _ => (inr tt, st ++ [job])
     | _ => (inl "owner is not a str", st ++ [job])
     end) : (string + unit) * list Cli.Job).
  assert (Hall : forall r, r ∈ Cli.required -> r ∈ Cli.columns cfg)
    by (intros r Hr; exact Hr).
  exact (main_stops_at_first_failing_row string (list Cli.Job) (fun _ => true)
           (fun _ _ => inr cfg) update "jobs.csv" None None None None false cfg []
           [row (Cli.VStr "NREL") "reV"] (row Cli.VNaN "rex")
           [row (Cli.VStr "NREL") "sup3r"]
           (Cli.mkJob Cli.VNaN (Cli.VStr "rex") None (Cli.VStr "out.csv"))
           [Cli.mkJob (Cli.VStr "NREL") (Cli.VStr "reV") None (Cli.VStr "out.csv")]
           "owner is not a str"
           [Cli.mkJob (Cli.VStr "NREL") (Cli.VStr "reV") None (Cli.VStr "out.csv");
            Cli.mkJob Cli.VNaN (Cli.VStr "rex") None (Cli.VStr "out.csv")]
           eq_refl eq_refl eq_refl Hall eq_refl eq_refl eq_refl eq_refl).
Defined.

(** * Further properties of [get_all] and the counting endpoints *)

Lemma counts_after_list_pages_witness :
  let self := mk (BASE_REQ_format "NREL" "reV") (Some "abc") in
  let page l := mkResponse 200 "OK" "" (Some (JList l)) ∅ "" in
  let rs := [page [JInt 1; JInt 2]; page [JInt 3]] in
  Forall2 list_page rs [[JInt 1; JInt 2]; [JInt 3]]
  /\ empty_page (page [])
  /\ (forks self (mkKwargs None None ∅) (mkWorld (rs ++ [page []]) [])).1 = Ok 3.
Proof.
  cbv zeta.
  assert (H1 : Forall2 list_page
                 [mkResponse 200 "OK" "" (Some (JList [JInt 1; JInt 2])) ∅ "";
                  mkResponse 200 "OK" "" (Some (JList [JInt 3])) ∅ ""]
                 [[JInt 1; JInt 2]; [JInt 3]]) by (repeat constructor).
  assert (H2 : empty_page (mkResponse 200 "OK" "" (Some (JList [])) ∅ ""))
    by (split; reflexivity).
  split; [exact H1 | split; [exact H2 |]].
  exact (proj1 (counts_after_list_pages
                  (mk (BASE_REQ_format "NREL" "reV") (Some "abc"))
                  (mkKwargs None None ∅) _ _ _ [] [] H1 H2 ltac:(discriminate))).
Defined.

Lemma get_all_loop_str request headers kwargs pending :
  forall params s log res rest,
    get_all_loop request headers kwargs params (Some (JStr s)) pending
    = (log, Ok res, rest) ->
    res = Some (JStr s).
Proof.
  destruct pending as [|temp pending]; intros params s log res rest;
    cbn [get_all_loop]; [discriminate |].
  destruct (get_all_body request (Some (JStr s)) temp) as [[o|o]|e] eqn:Hb;
    [| | discriminate].
  - apply get_all_body_next in Hb as (_ & j & out' & _ & Hm & _).
    cbn [merge_page py_update py_iadd_list] in Hm. destruct j; discriminate.
  - apply get_all_body_break in Hb as [_ ->].
    intros H. now injection H as _ <- _.
Qed.

(** X18. What [get_all] can return: [None], a list, a mapping, or a
    non-empty str, never a number, a boolean or null. A value other than
    [None] has the type of the first page served; a str is the body of
    that first page, unchanged. *)
Theorem get_all_result_types self request kwargs w out :
  (get_all self request kwargs w).1 = Ok (Some out) ->
  exists first rest j,
    pending w = first :: rest /\ json_body first = Some j
    /\ type_name out = type_name j
    /\ ((exists l, out = JList l) \/ (exists d, out = JDict d)
        \/ (exists s, out = JStr s /\ j = JStr s /\ s <> EmptyString)).
Proof.
  unfold get_all.
  destruct (pending w) as [|first rest]; cbn [get_all_loop fst]; [discriminate |].
  destruct (get_all_body request None first) as [[o|o]|e] eqn:Hb;
    cbn [fst]; [| | discriminate].
  - apply get_all_body_next in Hb as ((Hs & j' & Hj' & Hany) & j & out' & Hj & Hm & ->).
    rewrite Hj in Hj'. injection Hj' as <-.
    cbn [merge_page] in Hm. injection Hm as <-.
    destruct (get_all_loop _ _ _ _ (Some j) rest) as [[log r] rest'] eqn:Hl.
    cbn [fst snd]. intros ->.
    destruct (get_all_loop_type _ _ _ _ _ _ _ _ _ Hl) as (o' & Ho' & Ht).
    injection Ho' as <-.
    exists first, rest, j. split; [reflexivity | split; [exact Hj | split; [exact Ht |]]].
    destruct j; try discriminate.
    + right. right. apply get_all_loop_str in Hl. injection Hl as ->.
      exists s. split; [reflexivity | split; [reflexivity |]].
      intros ->. discriminate.
    + left. destruct out; try discriminate. eauto.
    + right. left. destruct out; try discriminate. eauto.
  - apply get_all_body_break in Hb as [_ ->]. discriminate.
Qed.

Lemma get_all_result_types_witness :
  let self := mk (BASE_REQ_format "NREL" "reV") (Some "abc") in
  let page j := mkResponse 200 "OK" "" (Some j) ∅ "" in
  let w := mkWorld [page (JStr "Not Found"); page (JList [])] [] in
  (get_all self "u" (mkKwargs None None ∅) w).1 = Ok (Some (JStr "Not Found"))
  /\ exists first rest j,
       pending w = first :: rest /\ json_body first = Some j
       /\ type_name (JStr "Not Found") = type_name j
       /\ ((exists l, JStr "Not Found" = JList l)
           \/ (exists d, JStr "Not Found" = JDict d)
           \/ (exists s, JStr "Not Found" = JStr s /\ j = JStr s
                         /\ s <> EmptyString)).
Proof.
  cbv zeta. split; [reflexivity |].
  exact (get_all_result_types (mk (BASE_REQ_format "NREL" "reV") (Some "abc")) "u"
           (mkKwargs None None ∅)
           (mkWorld [mkResponse 200 "OK" "" (Some (JStr "Not Found")) ∅ "";
                     mkResponse 200 "OK" "" (Some (JList [])) ∅ ""] [])
           (JStr "Not Found") eq_refl).
Defined.
